(** * p3.cpp: timed real-time / standard thread handles and the
      experiment dispatch of [main]

    A shallow embedding of [src/p3.cpp].  The program talks to the
    operating system (mlockall, pthread_create, pthread_join,
    gettimeofday); the answers of the system are an explicit oracle
    [os_model], the program's own calls are recorded in a trace of
    [event]s, and a C++ exception is a [Thrown] result that leaves the
    trace in place. *)

From Stdlib Require Import ZArith List String Ascii Bool Lia.
From Stdlib Require Import Floats.
Import ListNotations.

Open Scope string_scope.
Open Scope Z_scope.

(** ** Machine integers *)

(** [int] is 32 bits, [long] is 64 bits (LP64, as on the Raspberry Pi 5).
    Out-of-range results wrap around in two's complement. *)
Definition wrap_signed (bits : Z) (z : Z) : Z :=
  (z + 2 ^ (bits - 1)) mod 2 ^ bits - 2 ^ (bits - 1).

Definition wrap_int (z : Z) : Z := wrap_signed 32 z.
Definition wrap_long (z : Z) : Z := wrap_signed 64 z.

Definition LONG_MAX : Z := 2 ^ 63 - 1.
Definition LONG_MIN : Z := - 2 ^ 63.

(** ** System constants used by the source (Linux headers) *)

Definition SCHED_OTHER : Z := 0.
Definition SCHED_FIFO : Z := 1.
Definition SCHED_RR : Z := 2.

Definition PTHREAD_INHERIT_SCHED : Z := 0.
Definition PTHREAD_EXPLICIT_SCHED : Z := 1.

Definition MCL_CURRENT : Z := 1.
Definition MCL_FUTURE : Z := 2.

Definition EINVAL : Z := 22.

Definition PTHREAD_STACK_MIN : Z := 131072.
Definition CPU_SETSIZE : Z := 1024.

(** [#define SET_CPU false] *)
Definition SET_CPU : bool := false.

(** ** Data *)

Definition pthread_t := Z.

Record timeval : Type := mk_timeval { tv_sec : Z; tv_usec : Z }.

(** A [cpu_set_t] is a bit mask over CPU indices. *)
Definition cpu_set_t := Z.

Definition CPU_ZERO : cpu_set_t := 0.

Definition CPU_SET (cpu : Z) (set : cpu_set_t) : cpu_set_t :=
  if (0 <=? cpu) && (cpu <? CPU_SETSIZE) then Z.lor set (Z.shiftl 1 cpu) else set.

Definition CPU_ISSET (cpu : Z) (set : cpu_set_t) : bool := Z.testbit set cpu.

(** The thread attribute object, as far as [ThreadRT::Start] touches it. *)
Record pthread_attr_t : Type := mk_attr {
  attr_schedpolicy : Z;
  attr_sched_priority : Z;
  attr_stacksize : Z;        (* 0: the system default *)
  attr_inheritsched : Z
}.

Definition pthread_attr_init : pthread_attr_t :=
  {| attr_schedpolicy := SCHED_OTHER;
     attr_sched_priority := 0;
     attr_stacksize := 0;
     attr_inheritsched := PTHREAD_INHERIT_SCHED |}.

(** The attribute setters validate their argument and leave the object
    untouched on [EINVAL]; the source ignores what they return. *)
Definition pthread_attr_setschedpolicy (a : pthread_attr_t) (policy : Z)
  : Z * pthread_attr_t :=
  if (policy =? SCHED_OTHER) || (policy =? SCHED_FIFO) || (policy =? SCHED_RR)
  then (0, {| attr_schedpolicy := policy;
              attr_sched_priority := attr_sched_priority a;
              attr_stacksize := attr_stacksize a;
              attr_inheritsched := attr_inheritsched a |})
  else (EINVAL, a).

Definition sched_get_priority_min (policy : Z) : Z :=
  if (policy =? SCHED_FIFO) || (policy =? SCHED_RR) then 1 else 0.

Definition sched_get_priority_max (policy : Z) : Z :=
  if (policy =? SCHED_FIFO) || (policy =? SCHED_RR) then 99 else 0.

Definition pthread_attr_setschedparam (a : pthread_attr_t) (sched_priority : Z)
  : Z * pthread_attr_t :=
  if (sched_get_priority_min (attr_schedpolicy a) <=? sched_priority)
     && (sched_priority <=? sched_get_priority_max (attr_schedpolicy a))
  then (0, {| attr_schedpolicy := attr_schedpolicy a;
              attr_sched_priority := sched_priority;
              attr_stacksize := attr_stacksize a;
              attr_inheritsched := attr_inheritsched a |})
  else (EINVAL, a).

Definition pthread_attr_setstacksize (a : pthread_attr_t) (stacksize : Z)
  : Z * pthread_attr_t :=
  if PTHREAD_STACK_MIN <=? stacksize
  then (0, {| attr_schedpolicy := attr_schedpolicy a;
              attr_sched_priority := attr_sched_priority a;
              attr_stacksize := stacksize;
              attr_inheritsched := attr_inheritsched a |})
  else (EINVAL, a).

Definition pthread_attr_setinheritsched (a : pthread_attr_t) (inherit : Z)
  : Z * pthread_attr_t :=
  if (inherit =? PTHREAD_INHERIT_SCHED) || (inherit =? PTHREAD_EXPLICIT_SCHED)
  then (0, {| attr_schedpolicy := attr_schedpolicy a;
              attr_sched_priority := attr_sched_priority a;
              attr_stacksize := attr_stacksize a;
              attr_inheritsched := inherit |})
  else (EINVAL, a).

(** The two handle classes.  [thread_] and [start_time] are not
    initialised by the constructors: [None] until [Start] writes them. *)
Record ThreadRT : Type := mk_ThreadRT {
  rt_priority_ : Z;
  rt_policy_ : Z;
  rt_thread_ : option pthread_t;
  rt_start_time : option timeval;
  rt_app_id_ : Z
}.

Record ThreadNRT : Type := mk_ThreadNRT {
  nrt_thread_ : option pthread_t;
  nrt_start_time : option timeval;
  nrt_app_id_ : Z
}.

Inductive kind : Type := RealTime | Standard.

(** The start routine handed to [pthread_create]. *)
Inductive start_routine : Type :=
| RunThreadRT_routine (data : ThreadRT)
| RunThreadNRT_routine (data : ThreadNRT).

(** ** Elapsed time *)

(** [(double) z] for a [long] [z]. *)
Definition long_to_double (z : Z) : float :=
  if z =? LONG_MIN then (-0x1p63)%float
  else if z <? 0 then (- PrimFloat.of_uint63 (Uint63.of_Z (- z)))%float
  else PrimFloat.of_uint63 (Uint63.of_Z z).

(** The literal [1e-6] of the source, as the nearest binary64 value. *)
Definition micro : float := 0x1.0c6f7a0b5ed8dp-20%float.

(** [long seconds = end_time.tv_sec - start_time.tv_sec;
     long micros = (end_time.tv_usec - start_time.tv_usec);
     double elapsed_time = seconds + micros * 1e-6;] *)
Definition elapsed_time (start_time end_time : timeval) : float :=
  let seconds := wrap_long (tv_sec end_time - tv_sec start_time) in
  let micros := wrap_long (tv_usec end_time - tv_usec start_time) in
  (long_to_double seconds + long_to_double micros * micro)%float.

(** ** What a spawned thread does *)

Inductive thread_action : Type :=
| T_setaffinity (cpuset : cpu_set_t)      (* pthread_setaffinity_np(pthread_self(), ..) *)
| T_print_cpu (k : kind)                  (* "... running on CPU #%d" with sched_getcpu() *)
| T_getschedparam                         (* pthread_getschedparam(pthread_self(), ..) *)
| T_print_sched                           (* effective policy and priority, or the failure *)
| T_print_running (app_id : Z)            (* "Running App #%d..." *)
| T_BusyCal.                              (* the workload of p3_util.h *)

(** [void setCPU(int cpu_id = 1)] *)
Definition setCPU (cpu_id : Z) : list thread_action :=
  let cpuset := CPU_ZERO in
  let cpuset := CPU_SET cpu_id cpuset in
  [T_setaffinity cpuset].

(** [AppTypeX::Run] and [AppTypeY::Run] *)
Definition AppTypeX_Run (this : ThreadRT) : list thread_action :=
  [T_print_running (rt_app_id_ this); T_BusyCal].

Definition AppTypeY_Run (this : ThreadNRT) : list thread_action :=
  [T_print_running (nrt_app_id_ this); T_BusyCal].

(** [ThreadRT::RunThreadRT] and [ThreadNRT::RunThreadNRT]; the
    preprocessor test [#if SET_CPU] is the argument [set_cpu]. *)
Definition RunThreadRT (set_cpu : bool) (data : ThreadRT) : list thread_action :=
  (if set_cpu then setCPU 1 else [])
  ++ [T_print_cpu RealTime; T_getschedparam; T_print_sched]
  ++ AppTypeX_Run data.

Definition RunThreadNRT (set_cpu : bool) (data : ThreadNRT) : list thread_action :=
  (if set_cpu then setCPU 1 else [])
  ++ [T_print_cpu Standard]
  ++ AppTypeY_Run data.

Definition run_routine (set_cpu : bool) (r : start_routine) : list thread_action :=
  match r with
  | RunThreadRT_routine data => RunThreadRT set_cpu data
  | RunThreadNRT_routine data => RunThreadNRT set_cpu data
  end.

(** The affinity a thread ends up asking for: its last
    [pthread_setaffinity_np], [None] when it never calls it. *)
Fixpoint requested_affinity (acts : list thread_action) : option cpu_set_t :=
  match acts with
  | [] => None
  | T_setaffinity s :: rest =>
      match requested_affinity rest with
      | Some s' => Some s'
      | None => Some s
      end
  | _ :: rest => requested_affinity rest
  end.

(** ** Events of the main thread *)

Inductive event : Type :=
| Ev_stderr (msg : string)
| Ev_stdout (msg : string)
| Ev_mlockall (flags : Z) (ret : Z)
| Ev_new_AppTypeX (app_id priority policy : Z)
| Ev_new_AppTypeY (app_id : Z)
| Ev_Start (k : kind) (app_id : Z)
| Ev_Join (k : kind) (app_id : Z)
| Ev_attr_init
| Ev_attr_setschedpolicy (policy : Z)
| Ev_attr_setschedparam (sched_priority : Z)
| Ev_attr_setstacksize (stacksize : Z)
| Ev_attr_setinheritsched (inherit : Z)
| Ev_attr_destroy
| Ev_gettimeofday (tv : timeval)
| Ev_pthread_create (attr : option pthread_attr_t) (routine : start_routine)
                    (ret : Z) (thread : pthread_t)
| Ev_pthread_join (thread : pthread_t) (ret : Z)
| Ev_runtime (app_id : Z) (elapsed : float)   (* "App #%d runtime: %f seconds" *)
| Ev_ends (k : kind) (thread : pthread_t) (app_id : Z).

(** ** The operating system as an oracle *)

Record os_model : Type := mk_os {
  os_mlockall : Z;                       (* what mlockall returns *)
  os_errno : Z;                          (* errno after mlockall *)
  os_strerror : Z -> string;
  os_pthread_create_ret : nat -> Z;      (* k-th call: return code *)
  os_pthread_create_thread : nat -> pthread_t;   (* k-th call: the new thread *)
  os_pthread_join : nat -> Z;            (* k-th call: return code *)
  os_gettimeofday : nat -> timeval       (* k-th call: the time *)
}.

Record world : Type := mk_world {
  n_create : nat;
  n_join : nat;
  n_clock : nat;
  trace : list event
}.

Definition world0 : world :=
  {| n_create := 0; n_join := 0; n_clock := 0; trace := [] |}.

(** ** Results: normal return, a thrown exception, undefined behaviour *)

Inductive exception : Type := runtime_error (what : string).

Inductive result (A : Type) : Type :=
| Normal (a : A)
| Thrown (e : exception)
| Undefined.
Arguments Normal {A} a.
Arguments Thrown {A} e.
Arguments Undefined {A}.

Definition M (A : Type) : Type := world -> result A * world.

Definition ret {A} (a : A) : M A := fun w => (Normal a, w).

Definition bind {A B} (m : M A) (f : A -> M B) : M B :=
  fun w =>
    match m w with
    | (Normal a, w') => f a w'
    | (Thrown e, w') => (Thrown e, w')
    | (Undefined, w') => (Undefined, w')
    end.

Definition throw {A} (e : exception) : M A := fun w => (Thrown e, w).
Definition undefined {A} : M A := fun w => (Undefined, w).

Definition emit (e : event) : M unit :=
  fun w => (Normal tt,
            {| n_create := n_create w; n_join := n_join w; n_clock := n_clock w;
               trace := trace w ++ [e] |}).

Declare Scope m_scope.
Delimit Scope m_scope with m.
Notation "x <- c ;; k" := (bind c (fun x => k))
  (at level 61, c at next level, right associativity) : m_scope.
Notation "c ;; k" := (bind c (fun _ => k))
  (at level 61, right associativity) : m_scope.

Definition nl : string := String (ascii_of_nat 10) EmptyString.

Section Program.

Variable os : os_model.

Local Open Scope m_scope.

(** *** System calls *)

Definition mlockall (flags : Z) : M Z :=
  emit (Ev_mlockall flags (os_mlockall os)) ;; ret (os_mlockall os).

Definition gettimeofday : M timeval :=
  fun w =>
    let tv := os_gettimeofday os (n_clock w) in
    (Normal tv,
     {| n_create := n_create w; n_join := n_join w; n_clock := S (n_clock w);
        trace := trace w ++ [Ev_gettimeofday tv] |}).

Definition pthread_create (attr : option pthread_attr_t) (routine : start_routine)
  : M (Z * pthread_t) :=
  fun w =>
    let r := (os_pthread_create_ret os (n_create w),
              os_pthread_create_thread os (n_create w)) in
    (Normal r,
     {| n_create := S (n_create w); n_join := n_join w; n_clock := n_clock w;
        trace := trace w ++ [Ev_pthread_create attr routine (fst r) (snd r)] |}).

Definition pthread_join (thread : pthread_t) : M Z :=
  fun w =>
    let r := os_pthread_join os (n_join w) in
    (Normal r,
     {| n_create := n_create w; n_join := S (n_join w); n_clock := n_clock w;
        trace := trace w ++ [Ev_pthread_join thread r] |}).

(** *** [void LockMemory()] *)
Definition LockMemory : M unit :=
  r <- mlockall (Z.lor MCL_CURRENT MCL_FUTURE) ;;
  if negb (r =? 0)
  then throw (runtime_error ("mlockall failed: " ++ os_strerror os (os_errno os)))
  else ret tt.

(** *** [class ThreadRT] *)

Definition new_AppTypeX (app_id priority policy : Z) : M ThreadRT :=
  emit (Ev_new_AppTypeX app_id priority policy) ;;
  ret {| rt_priority_ := priority; rt_policy_ := policy;
         rt_thread_ := None; rt_start_time := None; rt_app_id_ := app_id |}.

Definition ThreadRT_Start (this : ThreadRT) : M ThreadRT :=
  emit (Ev_Start RealTime (rt_app_id_ this)) ;;
  emit Ev_attr_init ;;
  let thread_attr := pthread_attr_init in
  emit (Ev_attr_setschedpolicy (rt_policy_ this)) ;;
  let thread_attr := snd (pthread_attr_setschedpolicy thread_attr (rt_policy_ this)) in
  emit (Ev_attr_setschedparam (rt_priority_ this)) ;;
  let thread_attr := snd (pthread_attr_setschedparam thread_attr (rt_priority_ this)) in
  emit (Ev_attr_setstacksize (1024 * 1024)) ;;
  let thread_attr := snd (pthread_attr_setstacksize thread_attr (1024 * 1024)) in
  emit (Ev_attr_setinheritsched PTHREAD_EXPLICIT_SCHED) ;;
  let thread_attr := snd (pthread_attr_setinheritsched thread_attr PTHREAD_EXPLICIT_SCHED) in
  tv <- gettimeofday ;;
  let this := {| rt_priority_ := rt_priority_ this; rt_policy_ := rt_policy_ this;
                 rt_thread_ := rt_thread_ this; rt_start_time := Some tv;
                 rt_app_id_ := rt_app_id_ this |} in
  r <- pthread_create (Some thread_attr) (RunThreadRT_routine this) ;;
  if negb (fst r =? 0)
  then throw (runtime_error ("pthread_create failed: " ++ os_strerror os (fst r)))
  else
    let this := {| rt_priority_ := rt_priority_ this; rt_policy_ := rt_policy_ this;
                   rt_thread_ := Some (snd r); rt_start_time := rt_start_time this;
                   rt_app_id_ := rt_app_id_ this |} in
    emit Ev_attr_destroy ;;
    ret this.

Definition ThreadRT_Join (this : ThreadRT) : M unit :=
  emit (Ev_Join RealTime (rt_app_id_ this)) ;;
  match rt_thread_ this, rt_start_time this with
  | Some thread_, Some start_time =>
      r <- pthread_join thread_ ;;
      if negb (r =? 0)
      then throw (runtime_error ("pthread_join failed: " ++ os_strerror os r))
      else
        end_time <- gettimeofday ;;
        emit (Ev_runtime (rt_app_id_ this) (elapsed_time start_time end_time)) ;;
        emit (Ev_ends RealTime thread_ (rt_app_id_ this))
  | _, _ => undefined
  end.

(** *** [class ThreadNRT] *)

Definition new_AppTypeY (app_id : Z) : M ThreadNRT :=
  emit (Ev_new_AppTypeY app_id) ;;
  ret {| nrt_thread_ := None; nrt_start_time := None; nrt_app_id_ := app_id |}.

Definition ThreadNRT_Start (this : ThreadNRT) : M ThreadNRT :=
  emit (Ev_Start Standard (nrt_app_id_ this)) ;;
  tv <- gettimeofday ;;
  let this := {| nrt_thread_ := nrt_thread_ this; nrt_start_time := Some tv;
                 nrt_app_id_ := nrt_app_id_ this |} in
  r <- pthread_create None (RunThreadNRT_routine this) ;;
  if negb (fst r =? 0)
  then throw (runtime_error ("pthread_create failed: " ++ os_strerror os (fst r)))
  else
    ret {| nrt_thread_ := Some (snd r); nrt_start_time := nrt_start_time this;
           nrt_app_id_ := nrt_app_id_ this |}.

Definition ThreadNRT_Join (this : ThreadNRT) : M unit :=
  emit (Ev_Join Standard (nrt_app_id_ this)) ;;
  match nrt_thread_ this, nrt_start_time this with
  | Some thread_, Some start_time =>
      _ <- pthread_join thread_ ;;
      end_time <- gettimeofday ;;
      emit (Ev_runtime (nrt_app_id_ this) (elapsed_time start_time end_time)) ;;
      emit (Ev_ends Standard thread_ (nrt_app_id_ this))
  | _, _ => undefined
  end.

End Program.

(** ** [atoi] *)

(** The C library's [atoi(nptr)] is [(int) strtol(nptr, NULL, 10)]: skip
    white space, read an optional sign and the longest run of decimal
    digits (none: 0), saturate at the bounds of [long], convert to [int]. *)
Definition isspace (c : ascii) : bool :=
  let n := nat_of_ascii c in
  (Nat.eqb n 32) || ((Nat.leb 9 n) && (Nat.leb n 13)).

Definition digit_value (c : ascii) : option Z :=
  let n := nat_of_ascii c in
  if (Nat.leb 48 n) && (Nat.leb n 57) then Some (Z.of_nat n - 48) else None.

Fixpoint skip_spaces (s : string) : string :=
  match s with
  | String c rest => if isspace c then skip_spaces rest else s
  | EmptyString => s
  end.

Fixpoint read_digits (acc : Z) (s : string) : Z :=
  match s with
  | String c rest =>
      match digit_value c with
      | Some d => read_digits (10 * acc + d) rest
      | None => acc
      end
  | EmptyString => acc
  end.

Definition saturate_long (z : Z) : Z := Z.max LONG_MIN (Z.min LONG_MAX z).

Definition strtol10 (nptr : string) : Z :=
  match skip_spaces nptr with
  | String "-" rest => saturate_long (- read_digits 0 rest)
  | String "+" rest => saturate_long (read_digits 0 rest)
  | s => saturate_long (read_digits 0 s)
  end.

Definition atoi (nptr : string) : Z := wrap_int (strtol10 nptr).

(** ** [int main(int argc, char** argv)] *)

Section Main.

Variable os : os_model.

Local Open Scope m_scope.

Definition printf (msg : string) : M unit := emit (Ev_stdout msg).
Definition fprintf_stderr (msg : string) : M unit := emit (Ev_stderr msg).

(** The five branches of the dispatch, in source order. *)
Definition main_exp_id_0 : M unit :=
  printf ("Experiment 1: One CannyP3 APP (RT) and Two any-type APPs (NRT), All running on CPU=1" ++ nl) ;;
  app1 <- new_AppTypeX 1 80 SCHED_FIFO ;;
  app2 <- new_AppTypeY 2 ;;
  app3 <- new_AppTypeY 3 ;;
  app1 <- ThreadRT_Start os app1 ;;
  app2 <- ThreadNRT_Start os app2 ;;
  app3 <- ThreadNRT_Start os app3 ;;
  ThreadRT_Join os app1 ;;
  ThreadNRT_Join os app2 ;;
  ThreadNRT_Join os app3.

Definition main_exp_id_1 : M unit :=
  printf ("Experiment 2: Same workload as 1, but freely run on available CPUs" ++ nl) ;;
  app1 <- new_AppTypeX 1 80 SCHED_FIFO ;;
  app2 <- new_AppTypeY 2 ;;
  app3 <- new_AppTypeY 3 ;;
  app1 <- ThreadRT_Start os app1 ;;
  app2 <- ThreadNRT_Start os app2 ;;
  app3 <- ThreadNRT_Start os app3 ;;
  ThreadRT_Join os app1 ;;
  ThreadNRT_Join os app2 ;;
  ThreadNRT_Join os app3.

Definition main_exp_id_2 : M unit :=
  printf ("Experiment 3: Two any-type APPs (same priority, SCHED_FIFO) in RT and One any-type APP (NRT), All running on CPU=1" ++ nl) ;;
  app1 <- new_AppTypeX 1 80 SCHED_FIFO ;;
  app2 <- new_AppTypeX 2 80 SCHED_FIFO ;;
  app3 <- new_AppTypeY 3 ;;
  app1 <- ThreadRT_Start os app1 ;;
  app2 <- ThreadRT_Start os app2 ;;
  app3 <- ThreadNRT_Start os app3 ;;
  ThreadRT_Join os app1 ;;
  ThreadRT_Join os app2 ;;
  ThreadNRT_Join os app3.

Definition main_exp_id_3 : M unit :=
  printf ("Experiment 4: Two any-type APPs (same priority, SCHED_RR) in RT and One any-type APP (NRT), All running on CPU=1" ++ nl) ;;
  app1 <- new_AppTypeX 1 80 SCHED_RR ;;
  app2 <- new_AppTypeX 2 80 SCHED_RR ;;
  app3 <- new_AppTypeY 3 ;;
  app1 <- ThreadRT_Start os app1 ;;
  app2 <- ThreadRT_Start os app2 ;;
  app3 <- ThreadNRT_Start os app3 ;;
  ThreadRT_Join os app1 ;;
  ThreadRT_Join os app2 ;;
  ThreadNRT_Join os app3.

Definition main_exp_id_4 : M unit :=
  printf ("Experiment 5: Same workload as 3, but freely run on available CPUs" ++ nl) ;;
  app1 <- new_AppTypeX 1 80 SCHED_FIFO ;;
  app2 <- new_AppTypeX 2 80 SCHED_FIFO ;;
  app3 <- new_AppTypeY 3 ;;
  app1 <- ThreadRT_Start os app1 ;;
  app2 <- ThreadRT_Start os app2 ;;
  app3 <- ThreadNRT_Start os app3 ;;
  ThreadRT_Join os app1 ;;
  ThreadRT_Join os app2 ;;
  ThreadNRT_Join os app3.

Definition dispatch (exp_id : Z) : M unit :=
  if exp_id =? 0 then main_exp_id_0
  else if exp_id =? 1 then main_exp_id_1
  else if exp_id =? 2 then main_exp_id_2
  else if exp_id =? 3 then main_exp_id_3
  else if exp_id =? 4 then main_exp_id_4
  else printf ("ERROR: exp_id NOT FOUND" ++ nl).

(** [argc] is the length of [argv]; [argv[0]] is the program's name. *)
Definition main (argv : list string) : M Z :=
  let argc := Z.of_nat (List.length argv) in
  let exp_id := 4 in
  exp_id <- (if argc <? 2
             then fprintf_stderr ("WARNING: default exp_id=0" ++ nl) ;; ret exp_id
             else ret (atoi (nth 1 argv ""))) ;;
  LockMemory os ;;
  dispatch exp_id ;;
  ret 0.

(** A run of the process: [main] from the initial world.  A [Thrown]
    result is an exception nobody catches: the process is terminated. *)
Definition run (argv : list string) : result Z * world := main argv world0.

End Main.

(** ** Observations on a trace *)

Definition is_mlockall (e : event) : bool :=
  match e with Ev_mlockall _ _ => true | _ => false end.

Definition is_new (e : event) : bool :=
  match e with Ev_new_AppTypeX _ _ _ | Ev_new_AppTypeY _ => true | _ => false end.

Definition is_Start (e : event) : bool :=
  match e with Ev_Start _ _ => true | _ => false end.

Definition is_Join (e : event) : bool :=
  match e with Ev_Join _ _ => true | _ => false end.

Definition is_pthread_create (e : event) : bool :=
  match e with Ev_pthread_create _ _ _ _ => true | _ => false end.


Definition is_not_found (e : event) : bool :=
  match e with
  | Ev_stdout msg => String.eqb msg ("ERROR: exp_id NOT FOUND" ++ nl)
  | _ => false
  end.

(** The threads that came to life: the start routines of the
    [pthread_create] calls that returned 0. *)
Fixpoint spawned (tr : list event) : list start_routine :=
  match tr with
  | [] => []
  | Ev_pthread_create _ routine r _ :: rest =>
      if r =? 0 then routine :: spawned rest else spawned rest
  | _ :: rest => spawned rest
  end.

(** The affinity of a spawned thread, as this build sets it. *)
Definition thread_affinity (r : start_routine) : option cpu_set_t :=
  requested_affinity (run_routine SET_CPU r).

(** A friendly system: every call succeeds; thread ids 101, 102, ..,
    one second on the clock per call. *)
Definition os_ok : os_model :=
  {| os_mlockall := 0;
     os_errno := 0;
     os_strerror := fun _ => "Success";
     os_pthread_create_ret := fun _ => 0;
     os_pthread_create_thread := fun k => 101 + Z.of_nat k;
     os_pthread_join := fun _ => 0;
     os_gettimeofday := fun k => {| tv_sec := 1700000000 + Z.of_nat k; tv_usec := 250000 |} |}.

(** What a constructor call asks for: the kind of the handle and, for a
    real-time one, the requested priority and policy. *)
Inductive handle_spec : Type :=
| Spec_RealTime (priority policy : Z)
| Spec_Standard.

Fixpoint thread_mix (tr : list event) : list handle_spec :=
  match tr with
  | [] => []
  | Ev_new_AppTypeX _ priority policy :: rest => Spec_RealTime priority policy :: thread_mix rest
  | Ev_new_AppTypeY _ :: rest => Spec_Standard :: thread_mix rest
  | _ :: rest => thread_mix rest
  end.

(** The mix the dispatch constructs for a scenario identifier. *)
Definition scenario_mix (os : os_model) (exp_id : Z) : list handle_spec :=
  thread_mix (trace (snd (dispatch os exp_id world0))).

(** Construction, [Start()] and [Join()] calls with the handle they are
    made on, named by kind and application number. *)
Inductive call : Type :=
| Call_new (h : kind * Z)
| Call_Start (h : kind * Z)
| Call_Join (h : kind * Z).

Fixpoint calls (tr : list event) : list call :=
  match tr with
  | [] => []
  | Ev_new_AppTypeX app_id _ _ :: rest => Call_new (RealTime, app_id) :: calls rest
  | Ev_new_AppTypeY app_id :: rest => Call_new (Standard, app_id) :: calls rest
  | Ev_Start k app_id :: rest => Call_Start (k, app_id) :: calls rest
  | Ev_Join k app_id :: rest => Call_Join (k, app_id) :: calls rest
  | _ :: rest => calls rest
  end.

Definition routine_app_id (r : start_routine) : Z :=
  match r with
  | RunThreadRT_routine data => rt_app_id_ data
  | RunThreadNRT_routine data => nrt_app_id_ data
  end.

(** A thread is pinned to [cpu] when the affinity mask it installs holds
    [cpu] and nothing else. *)
Definition pinned_to (cpu : Z) (r : start_routine) : Prop :=
  exists set, thread_affinity r = Some set /\ forall c, CPU_ISSET c set = (c =? cpu).

Definition unpinned (r : start_routine) : Prop := thread_affinity r = None.

Definition exits_with (code : Z) (out : result Z * world) : Prop :=
  fst out = Normal code.

Definition reports_not_found (out : result Z * world) : Prop :=
  existsb is_not_found (trace (snd out)) = true.

Definition catalog : list Z := [0; 1; 2; 3; 4].

(** Systems that refuse: the memory lock (errno 12), the first thread
    creation (error 1), every join after the first (error 3). *)
Definition os_lock_denied : os_model :=
  {| os_mlockall := -1;
     os_errno := 12;
     os_strerror := fun _ => "Cannot allocate memory";
     os_pthread_create_ret := os_pthread_create_ret os_ok;
     os_pthread_create_thread := os_pthread_create_thread os_ok;
     os_pthread_join := os_pthread_join os_ok;
     os_gettimeofday := os_gettimeofday os_ok |}.

Definition os_create_denied : os_model :=
  {| os_mlockall := 0;
     os_errno := 0;
     os_strerror := fun _ => "Operation not permitted";
     os_pthread_create_ret := fun k => match k with O => 1 | _ => 0 end;
     os_pthread_create_thread := os_pthread_create_thread os_ok;
     os_pthread_join := os_pthread_join os_ok;
     os_gettimeofday := os_gettimeofday os_ok |}.

Definition os_join_fails : os_model :=
  {| os_mlockall := 0;
     os_errno := 0;
     os_strerror := fun _ => "No such process";
     os_pthread_create_ret := os_pthread_create_ret os_ok;
     os_pthread_create_thread := os_pthread_create_thread os_ok;
     os_pthread_join := fun k => match k with O => 0 | _ => 3 end;
     os_gettimeofday := os_gettimeofday os_ok |}.

(** ** Further definitions used by the statements *)

(** Concrete inputs: the start routine of application 2 in scenario 0 on
    [os_ok], the same handle once started, and the world in which its
    [Join()] is called. *)
Definition app2_of_scenario_0 : start_routine :=
  RunThreadNRT_routine
    {| nrt_thread_ := None;
       nrt_start_time := Some {| tv_sec := 1700000001; tv_usec := 250000 |};
       nrt_app_id_ := 2 |}.

Definition start_of_app2 : timeval := {| tv_sec := 1700000001; tv_usec := 250000 |}.

Definition started_app2 : ThreadNRT :=
  {| nrt_thread_ := Some 102;
     nrt_start_time := Some start_of_app2;
     nrt_app_id_ := 2 |}.

Definition world_after_one_join : world :=
  {| n_create := 3; n_join := 1; n_clock := 4; trace := [] |}.

(** Every handle of a scenario is constructed, then every handle is
    started, then every handle is joined, each time in the same order. *)
Definition lifecycle_complete (tr : list event) : Prop :=
  exists hs : list (kind * Z),
    List.length hs = 3%nat
    /\ NoDup hs
    /\ calls tr = (map Call_new hs ++ map Call_Start hs ++ map Call_Join hs)%list.

Definition before_lock_ok (e : event) : bool :=
  negb (is_mlockall e || is_new e || is_Start e || is_pthread_create e).

Definition valid_rt_request (this : ThreadRT) : Prop :=
  (rt_policy_ this = SCHED_FIFO \/ rt_policy_ this = SCHED_RR)
  /\ 1 <= rt_priority_ this <= 99.

(** The attribute object [ThreadRT::Start] hands to [pthread_create]. *)
Definition Start_attr (this : ThreadRT) : pthread_attr_t :=
  snd (pthread_attr_setinheritsched
         (snd (pthread_attr_setstacksize
                 (snd (pthread_attr_setschedparam
                         (snd (pthread_attr_setschedpolicy pthread_attr_init (rt_policy_ this)))
                         (rt_priority_ this)))
                 (1024 * 1024)))
         PTHREAD_EXPLICIT_SCHED).

Definition with_start_time (this : ThreadRT) (tv : timeval) : ThreadRT :=
  {| rt_priority_ := rt_priority_ this; rt_policy_ := rt_policy_ this;
     rt_thread_ := rt_thread_ this; rt_start_time := Some tv;
     rt_app_id_ := rt_app_id_ this |}.

Definition with_thread (this : ThreadRT) (t : pthread_t) : ThreadRT :=
  {| rt_priority_ := rt_priority_ this; rt_policy_ := rt_policy_ this;
     rt_thread_ := Some t; rt_start_time := rt_start_time this;
     rt_app_id_ := rt_app_id_ this |}.

Definition app1_fifo_80 : ThreadRT :=
  {| rt_priority_ := 80; rt_policy_ := SCHED_FIFO;
     rt_thread_ := None; rt_start_time := None; rt_app_id_ := 1 |}.

(** ** Elapsed time: what the proofs need *)

(** A time as [gettimeofday] gives it: seconds since the Epoch within
    [long], microseconds below one million. *)
Definition timeval_wf (tv : timeval) : Prop :=
  0 <= tv_sec tv < 2 ^ 63 /\ 0 <= tv_usec tv < 1000000.

(** Wall-clock order. *)
Definition timeval_le (a b : timeval) : Prop :=
  tv_sec a < tv_sec b \/ (tv_sec a = tv_sec b /\ tv_usec a <= tv_usec b).

(** [micros * 1e-6] *)
Definition scaled_micros (m : Z) : float := (long_to_double m * micro)%float.

(** The binary64 value -1 in the specification format. *)
Definition sf_minus_one : spec_float := S754_finite true 4503599627370496 (-52).

(** A value that is at least 1: plus infinity, or a positive normal number
    whose exponent is not below that of 1. *)
Definition sf_ge_one (x : spec_float) : Prop :=
  x = S754_infinity false
  \/ exists mx ex, x = S754_finite false mx ex /\ -52 <= ex /\ Zpos (digits2_pos mx) = 53.

(** [f] holds on the [2^depth] consecutive integers that start at [lo]. *)
Fixpoint all_in_block (f : Z -> bool) (depth : nat) (lo : Z) : bool :=
  match depth with
  | O => f lo
  | S d => all_in_block f d lo && all_in_block f d (lo + 2 ^ Z.of_nat d)
  end.

(** For a difference of microseconds [m] below one million: the sum with
    zero seconds is not negative, and the scaled term is at least -1, for
    [m] and for [- m]. *)
Definition micros_ok (m : Z) : bool :=
  (1000000 <=? m)
  || ((0 <=? long_to_double 0 + scaled_micros m)%float
      && (-1 <=? scaled_micros m)%float
      && (-1 <=? scaled_micros (- m))%float).

(** ** Definitions for the statements on the default and on unparsable arguments *)




(** ** Definitions for the further properties *)

(** [ThreadNRT] after [Start] wrote its fields. *)
Definition nrt_with_start_time (this : ThreadNRT) (tv : timeval) : ThreadNRT :=
  {| nrt_thread_ := nrt_thread_ this; nrt_start_time := Some tv;
     nrt_app_id_ := nrt_app_id_ this |}.

Definition nrt_with_thread (this : ThreadNRT) (t : pthread_t) : ThreadNRT :=
  {| nrt_thread_ := Some t; nrt_start_time := nrt_start_time this;
     nrt_app_id_ := nrt_app_id_ this |}.

(** The threads [pthread_create] made (return code 0) and the threads
    handed to [pthread_join], in call order. *)
Fixpoint created_threads (tr : list event) : list pthread_t :=
  match tr with
  | [] => []
  | Ev_pthread_create _ _ r t :: rest =>
      if r =? 0 then t :: created_threads rest else created_threads rest
  | _ :: rest => created_threads rest
  end.

Fixpoint joined_threads (tr : list event) : list pthread_t :=
  match tr with
  | [] => []
  | Ev_pthread_join t _ :: rest => t :: joined_threads rest
  | _ :: rest => joined_threads rest
  end.

(** The "App #%d runtime: %f seconds" lines, in order. *)
Fixpoint runtime_reports (tr : list event) : list (Z * float) :=
  match tr with
  | [] => []
  | Ev_runtime app_id elapsed :: rest => (app_id, elapsed) :: runtime_reports rest
  | _ :: rest => runtime_reports rest
  end.

Definition is_failed_create (e : event) : bool :=
  match e with Ev_pthread_create _ _ r _ => negb (r =? 0) | _ => false end.

Definition is_gettimeofday (e : event) : bool :=
  match e with Ev_gettimeofday _ => true | _ => false end.

Definition is_BusyCal (a : thread_action) : bool :=
  match a with T_BusyCal => true | _ => false end.

(** Strict wall-clock order. *)
Definition timeval_lt (a b : timeval) : Prop :=
  tv_sec a < tv_sec b \/ (tv_sec a = tv_sec b /\ tv_usec a < tv_usec b).

(** The binary64 value 1 in the specification format. *)
Definition sf_one : spec_float := S754_finite false 4503599627370496 (-52).

(** A value of sign [sx] and of magnitude at least 1. *)
Definition sf_big (sx : bool) (x : spec_float) : Prop :=
  x = S754_infinity sx
  \/ exists mx ex, x = S754_finite sx mx ex /\ -52 <= ex /\ Zpos (digits2_pos mx) = 53.

(** A value that cannot outweigh one of sign [sx] and magnitude at least
    1: zero, of the same sign, or of magnitude below 1. *)
Definition sf_small_against (sx : bool) (y : spec_float) : Prop :=
  match y with
  | S754_zero _ => True
  | S754_infinity sy => sy = sx
  | S754_nan => False
  | S754_finite sy my ey =>
      sy = sx \/ ey < -52 \/ (ey = -52 /\ Zpos my < 4503599627370496)
  end.

(** For a difference of microseconds [m] below one million: the scaled
    term lies strictly between -1 and 1, for [m] and for [- m], and with
    zero seconds the sum has the sign of the difference. *)
Definition micros_sign_ok (m : Z) : bool :=
  (1000000 <=? m)
  || ((-1 <? scaled_micros m)%float
      && (-1 <? scaled_micros (- m))%float
      && (scaled_micros m <? 1)%float
      && (scaled_micros (- m) <? 1)%float
      && ((m =? 0)
          || ((0 <? long_to_double 0 + scaled_micros m)%float
              && (long_to_double 0 + scaled_micros (- m) <? 0)%float))).

(** Concrete inputs for the further properties. *)
Definition new_app2 : ThreadNRT :=
  {| nrt_thread_ := None; nrt_start_time := None; nrt_app_id_ := 2 |}.

Definition started_app1 : ThreadRT :=
  {| rt_priority_ := 80; rt_policy_ := SCHED_FIFO;
     rt_thread_ := Some 101;
     rt_start_time := Some {| tv_sec := 1700000000; tv_usec := 250000 |};
     rt_app_id_ := 1 |}.

Definition started_first_app2 : ThreadNRT :=
  {| nrt_thread_ := Some 101;
     nrt_start_time := Some {| tv_sec := 1700000000; tv_usec := 250000 |};
     nrt_app_id_ := 2 |}.

Definition world_after_starts : world :=
  {| n_create := 3; n_join := 0; n_clock := 3; trace := [] |}.

Definition app1_fifo_150 : ThreadRT :=
  {| rt_priority_ := 150; rt_policy_ := SCHED_FIFO;
     rt_thread_ := None; rt_start_time := None; rt_app_id_ := 1 |}.

Definition end_of_app2 : timeval := {| tv_sec := 1700000004; tv_usec := 250000 |}.

(** ** Proof tools *)

(** Unfold the program and its monad, leaving the system's answers, the
    parsing of the argument and the floating-point arithmetic alone. *)
Ltac red_prog :=
  lazy beta iota zeta delta
    [run main dispatch LockMemory mlockall
     main_exp_id_0 main_exp_id_1 main_exp_id_2 main_exp_id_3 main_exp_id_4
     ThreadRT_Start ThreadNRT_Start ThreadRT_Join ThreadNRT_Join
     new_AppTypeX new_AppTypeY printf fprintf_stderr
     bind ret emit throw undefined pthread_create pthread_join gettimeofday
     negb world0 n_create n_join n_clock trace fst snd app
     rt_thread_ rt_start_time rt_app_id_ rt_priority_ rt_policy_
     nrt_thread_ nrt_start_time nrt_app_id_
     scenario_mix exits_with reports_not_found].

(** The same for a world that is a variable: appending stays symbolic. *)
Ltac red_open :=
  lazy beta iota zeta delta
    [ThreadRT_Start ThreadNRT_Start ThreadRT_Join ThreadNRT_Join
     new_AppTypeX new_AppTypeY printf fprintf_stderr LockMemory mlockall
     bind ret emit throw undefined pthread_create pthread_join gettimeofday
     negb n_create n_join n_clock trace fst snd
     rt_thread_ rt_start_time rt_app_id_ rt_priority_ rt_policy_
     nrt_thread_ nrt_start_time nrt_app_id_].

(** Follow every path: split on each test of a return code or of the
    scenario identifier against a constant. *)
Ltac explore :=
  repeat (red_prog;
          match goal with
          | |- context [if (?a =? ?b) then _ else _] =>
              first [ let v := eval vm_compute in (a =? b) in
                      match v with true => idtac | false => idtac end;
                      change (a =? b) with v
                    | destruct (a =? b) eqn:? ]
          end);
  red_prog.

Ltac os_contradiction :=
  match goal with
  | Hs : forall k, os_pthread_create_ret ?os k = 0,
    H : (os_pthread_create_ret ?os _ =? 0) = false |- _ =>
      rewrite Hs in H; discriminate H
  | Hs : forall k, os_pthread_join ?os k = 0,
    H : (os_pthread_join ?os _ =? 0) = false |- _ =>
      rewrite Hs in H; discriminate H
  | Hs : os_mlockall ?os = 0, H : (os_mlockall ?os =? 0) = false |- _ =>
      rewrite Hs in H; discriminate H
  | Hs : os_mlockall ?os <> 0, H : (os_mlockall ?os =? 0) = true |- _ =>
      apply Z.eqb_eq in H; contradiction
  end.

(** ** CPU affinity *)

Lemma CPU_SET_1_exact (c : Z) : CPU_ISSET c (CPU_SET 1 CPU_ZERO) = (c =? 1).
Proof.
  change (CPU_SET 1 CPU_ZERO) with (2 ^ 1). unfold CPU_ISSET.
  rewrite Z.pow2_bits_eqb by lia. apply Z.eqb_sym.
Qed.

Lemma requested_affinity_routine (set_cpu : bool) (r : start_routine) :
  requested_affinity (run_routine set_cpu r)
  = if set_cpu then Some (CPU_SET 1 CPU_ZERO) else None.
Proof. destruct r, set_cpu; reflexivity. Qed.

Lemma thread_affinity_none (r : start_routine) : thread_affinity r = None.
Proof. unfold thread_affinity. rewrite requested_affinity_routine. reflexivity. Qed.

(** The statement of C1 evaluated on the code: in scenario 0 on a system
    where every call succeeds, the first thread spawned is not pinned to
    CPU 1, it sets no affinity at all, although the branch describes
    itself as "All running on CPU=1". *)
Lemma C1_scenario_0_not_pinned :
  ~ ((forall os arg r,
        In (atoi arg) [0; 2; 3] ->
        In r (spawned (trace (snd (run os ["p3"; arg])))) -> pinned_to 1 r)
     /\ (forall os arg r,
        In (atoi arg) [1; 4] ->
        In r (spawned (trace (snd (run os ["p3"; arg])))) -> unpinned r)).
Proof.
  intros [Hpin _].
  destruct (Hpin os_ok "0"
              (RunThreadRT_routine
                 {| rt_priority_ := 80; rt_policy_ := SCHED_FIFO; rt_thread_ := None;
                    rt_start_time := Some {| tv_sec := 1700000000; tv_usec := 250000 |};
                    rt_app_id_ := 1 |}))
    as [set [Hset _]].
  - vm_compute. left. reflexivity.
  - vm_compute. left. reflexivity.
  - rewrite thread_affinity_none in Hset. discriminate Hset.
Qed.

(** C1 (the code departs from the claim in scenarios 0, 2 and 3): every
    thread spawned in any run, whatever the scenario identifier, sets no
    CPU affinity and so is not pinned to CPU 1, because the source defines
    the switch SET_CPU as false and both start routines call [setCPU(1)]
    only under that switch.  The pinning the claim describes is what the
    same start routine does when the switch is true: it installs the mask
    that holds CPU 1 and nothing else. *)
Theorem C1_affinity_follows_SET_CPU :
  forall os argv r,
    In r (spawned (trace (snd (run os argv)))) ->
    unpinned r
    /\ ~ pinned_to 1 r
    /\ requested_affinity (run_routine false r) = None
    /\ requested_affinity (run_routine true r) = Some (CPU_SET 1 CPU_ZERO)
    /\ forall c, CPU_ISSET c (CPU_SET 1 CPU_ZERO) = (c =? 1).
Proof.
  intros os argv r _. unfold unpinned, pinned_to.
  rewrite thread_affinity_none, !requested_affinity_routine.
  split; [reflexivity | split; [ | repeat split; apply CPU_SET_1_exact]].
  intros [set [Hset _]]. discriminate Hset.
Qed.

Lemma C1_affinity_follows_SET_CPU_witness :
  In app2_of_scenario_0 (spawned (trace (snd (run os_ok ["p3"; "0"]))))
  /\ unpinned app2_of_scenario_0.
Proof.
  assert (H : In app2_of_scenario_0 (spawned (trace (snd (run os_ok ["p3"; "0"]))))).
  { vm_compute. right. left. reflexivity. }
  split.
  - exact H.
  - exact (proj1 (C1_affinity_follows_SET_CPU os_ok ["p3"; "0"] app2_of_scenario_0 H)).
Defined.

(** ** The scenario catalog *)

Lemma scenario_mix_values (os : os_model) :
  scenario_mix os 0 = [Spec_RealTime 80 SCHED_FIFO; Spec_Standard; Spec_Standard]
  /\ scenario_mix os 1 = [Spec_RealTime 80 SCHED_FIFO; Spec_Standard; Spec_Standard]
  /\ scenario_mix os 2 = [Spec_RealTime 80 SCHED_FIFO; Spec_RealTime 80 SCHED_FIFO; Spec_Standard]
  /\ scenario_mix os 3 = [Spec_RealTime 80 SCHED_RR; Spec_RealTime 80 SCHED_RR; Spec_Standard]
  /\ scenario_mix os 4 = [Spec_RealTime 80 SCHED_FIFO; Spec_RealTime 80 SCHED_FIFO; Spec_Standard].
Proof.
  repeat split; unfold scenario_mix;
    match goal with
    | |- context [dispatch os ?n] =>
        change (dispatch os n) with
          (match n with
           | 0 => main_exp_id_0 os | 1 => main_exp_id_1 os | 2 => main_exp_id_2 os
           | 3 => main_exp_id_3 os | _ => main_exp_id_4 os
           end)
    end; explore; reflexivity.
Qed.

(** C2 (as stated, refuted): scenario 4 constructs two real-time handles
    and one standard handle, scenario 0 one real-time and two standard. *)
Lemma C2_mix_4_differs_from_mix_0 :
  ~ (forall os, scenario_mix os 4 = scenario_mix os 0).
Proof.
  intros H. specialize (H os_ok).
  destruct (scenario_mix_values os_ok) as (H0 & _ & _ & _ & H4).
  rewrite H0, H4 in H. discriminate H.
Qed.

(** C2 (amended): the mix of scenario 4 is the mix of scenario 2, and the
    mix of scenario 1 is the mix of scenario 0: same number of handles,
    same kind, requested priority and requested policy handle by handle. *)
Theorem C2_mix_4_is_mix_2 :
  forall os,
    scenario_mix os 4 = scenario_mix os 2
    /\ scenario_mix os 1 = scenario_mix os 0
    /\ scenario_mix os 4 = [Spec_RealTime 80 SCHED_FIFO; Spec_RealTime 80 SCHED_FIFO; Spec_Standard]
    /\ scenario_mix os 0 = [Spec_RealTime 80 SCHED_FIFO; Spec_Standard; Spec_Standard].
Proof.
  intros os. destruct (scenario_mix_values os) as (H0 & H1 & H2 & _ & H4).
  rewrite H0, H1, H2, H4. repeat split.
Qed.

(** ** Join *)

Section JoinFacts.

Variable os : os_model.

Lemma ThreadRT_Join_run (this : ThreadRT) (thread_ : pthread_t) (st : timeval) (w : world) :
  rt_thread_ this = Some thread_ ->
  rt_start_time this = Some st ->
  ThreadRT_Join os this w
  = let r := os_pthread_join os (n_join w) in
    let et := os_gettimeofday os (n_clock w) in
    if r =? 0
    then (Normal tt,
          {| n_create := n_create w; n_join := S (n_join w); n_clock := S (n_clock w);
             trace := trace w ++ [Ev_Join RealTime (rt_app_id_ this);
                                  Ev_pthread_join thread_ r;
                                  Ev_gettimeofday et;
                                  Ev_runtime (rt_app_id_ this) (elapsed_time st et);
                                  Ev_ends RealTime thread_ (rt_app_id_ this)] |})
    else (Thrown (runtime_error ("pthread_join failed: " ++ os_strerror os r)),
          {| n_create := n_create w; n_join := S (n_join w); n_clock := n_clock w;
             trace := trace w ++ [Ev_Join RealTime (rt_app_id_ this);
                                  Ev_pthread_join thread_ r] |}).
Proof.
  destruct this as [prio pol th stt app]; destruct w as [nc nj nk tr]; simpl.
  intros -> ->. red_open.
  destruct (os_pthread_join os nj =? 0); red_open;
    rewrite <- ?app_assoc; reflexivity.
Qed.

Lemma ThreadNRT_Join_run (this : ThreadNRT) (thread_ : pthread_t) (st : timeval) (w : world) :
  nrt_thread_ this = Some thread_ ->
  nrt_start_time this = Some st ->
  ThreadNRT_Join os this w
  = let r := os_pthread_join os (n_join w) in
    let et := os_gettimeofday os (n_clock w) in
    (Normal tt,
     {| n_create := n_create w; n_join := S (n_join w); n_clock := S (n_clock w);
        trace := trace w ++ [Ev_Join Standard (nrt_app_id_ this);
                             Ev_pthread_join thread_ r;
                             Ev_gettimeofday et;
                             Ev_runtime (nrt_app_id_ this) (elapsed_time st et);
                             Ev_ends Standard thread_ (nrt_app_id_ this)] |}).
Proof.
  destruct this as [th stt app]; destruct w as [nc nj nk tr]; simpl.
  intros -> ->. red_open. rewrite <- ?app_assoc. reflexivity.
Qed.

End JoinFacts.

(** C3 (the code departs from the claim on standard handles): when the
    system's join fails, [ThreadRT::Join] throws the error with the
    system's reason, while [ThreadNRT::Join] drops the return code, returns
    normally and goes on to report a run time. *)
Theorem C3_ThreadNRT_Join_ignores_failure :
  forall os w thread_ st,
    os_pthread_join os (n_join w) <> 0 ->
    (forall this : ThreadRT,
        rt_thread_ this = Some thread_ -> rt_start_time this = Some st ->
        fst (ThreadRT_Join os this w)
        = Thrown (runtime_error ("pthread_join failed: "
                                 ++ os_strerror os (os_pthread_join os (n_join w)))))
    /\ (forall this : ThreadNRT,
        nrt_thread_ this = Some thread_ -> nrt_start_time this = Some st ->
        fst (ThreadNRT_Join os this w) = Normal tt
        /\ In (Ev_pthread_join thread_ (os_pthread_join os (n_join w)))
              (trace (snd (ThreadNRT_Join os this w)))
        /\ In (Ev_runtime (nrt_app_id_ this)
                 (elapsed_time st (os_gettimeofday os (n_clock w))))
              (trace (snd (ThreadNRT_Join os this w)))).
Proof.
  intros os w thread_ st Hfail. split.
  - intros this Ht Hs. rewrite (ThreadRT_Join_run os this thread_ st w Ht Hs).
    cbv zeta. apply Z.eqb_neq in Hfail. rewrite Hfail. reflexivity.
  - intros this Ht Hs. rewrite (ThreadNRT_Join_run os this thread_ st w Ht Hs).
    cbv zeta. cbn [fst snd trace]. repeat split.
    + apply in_or_app. right. right. left. reflexivity.
    + apply in_or_app. right. do 3 right. left. reflexivity.
Qed.

Lemma C3_ThreadNRT_Join_ignores_failure_witness :
  os_pthread_join os_join_fails (n_join world_after_one_join) <> 0
  /\ fst (ThreadNRT_Join os_join_fails started_app2 world_after_one_join) = Normal tt.
Proof.
  assert (H : os_pthread_join os_join_fails (n_join world_after_one_join) <> 0).
  { simpl. lia. }
  split.
  - exact H.
  - exact (proj1 (proj2 (C3_ThreadNRT_Join_ignores_failure os_join_fails world_after_one_join
                           102 {| tv_sec := 1700000001; tv_usec := 250000 |} H)
                    started_app2 eq_refl eq_refl)).
Defined.

(** The same at the level of the process: in scenario 0, a failing join of
    application 2 goes unnoticed and the process exits with code 0. *)
Example scenario_0_failed_join_unnoticed :
  fst (run os_join_fails ["p3"; "0"]) = Normal 0
  /\ existsb (fun e => match e with Ev_pthread_join 102 3 => true | _ => false end)
       (trace (snd (run os_join_fails ["p3"; "0"]))) = true
  /\ existsb (fun e => match e with Ev_runtime 2 _ => true | _ => false end)
       (trace (snd (run os_join_fails ["p3"; "0"]))) = true.
Proof. vm_compute. repeat split. Qed.

(** ** [main]: selection of the scenario *)

Lemma main_with_argument (os : os_model) (prog arg : string) (rest : list string) (w : world) :
  main os (prog :: arg :: rest) w
  = bind (LockMemory os) (fun _ => bind (dispatch os (atoi arg)) (fun _ => ret 0)) w.
Proof.
  unfold main.
  replace (Z.of_nat (List.length (prog :: arg :: rest)) <? 2) with false
    by (symmetry; apply Z.ltb_ge; simpl List.length; lia).
  reflexivity.
Qed.


Lemma not_in_catalog (id : Z) :
  ~ In id catalog ->
  (id =? 0) = false /\ (id =? 1) = false /\ (id =? 2) = false
  /\ (id =? 3) = false /\ (id =? 4) = false.
Proof.
  unfold catalog. simpl. intros H.
  repeat split; apply Z.eqb_neq; intros ->; apply H; tauto.
Qed.

(** C4 (as stated, refuted): with identifier 99 on a system that denies the
    memory lock, nothing reports "not found" and the process does not exit
    with code 0: the error thrown by [LockMemory] ends it first. *)
Lemma C4_lock_denied_no_report :
  ~ (forall os prog arg rest,
        ~ In (atoi arg) catalog ->
        let out := run os (prog :: arg :: rest) in
        filter is_new (trace (snd out)) = []
        /\ spawned (trace (snd out)) = []
        /\ reports_not_found out
        /\ exits_with 0 out).
Proof.
  intros H.
  assert (Hid : ~ In (atoi "99") catalog).
  { vm_compute. intuition discriminate. }
  destruct (H os_lock_denied "p3" "99" [] Hid) as (_ & _ & _ & Hexit).
  vm_compute in Hexit. discriminate Hexit.
Qed.

(** C4 (amended): for every scenario identifier outside the catalog, no
    handle is constructed, no [Start()] or [Join()] is called and no thread
    is created; when the memory lock succeeds, "not found" is reported and
    the process exits with code 0; when the lock is denied, the process is
    ended by the thrown error and reports nothing. *)
Theorem C4_unknown_identifier :
  forall os prog arg rest,
    ~ In (atoi arg) catalog ->
    let out := run os (prog :: arg :: rest) in
    calls (trace (snd out)) = []
    /\ filter is_pthread_create (trace (snd out)) = []
    /\ spawned (trace (snd out)) = []
    /\ (os_mlockall os = 0 -> reports_not_found out /\ exits_with 0 out)
    /\ (os_mlockall os <> 0 ->
        fst out = Thrown (runtime_error ("mlockall failed: " ++ os_strerror os (os_errno os)))
        /\ existsb is_not_found (trace (snd out)) = false).
Proof.
  intros os prog arg rest Hid out. subst out. unfold run.
  rewrite main_with_argument.
  destruct (not_in_catalog _ Hid) as (H0 & H1 & H2 & H3 & H4).
  set (id := atoi arg) in *. clearbody id.
  red_prog. destruct (os_mlockall os =? 0) eqn:Hlock; red_prog.
  - rewrite H0, H1, H2, H3, H4. red_prog.
    split; [reflexivity | split; [reflexivity | split; [reflexivity | split]]].
    + intros _. split; reflexivity.
    + intros Hne. apply Z.eqb_eq in Hlock. contradiction.
  - split; [reflexivity | split; [reflexivity | split; [reflexivity | split]]].
    + intros Heq. rewrite Heq in Hlock. discriminate Hlock.
    + intros _. split; reflexivity.
Qed.

Lemma C4_unknown_identifier_witness :
  ~ In (atoi "99") catalog
  /\ calls (trace (snd (run os_ok ["p3"; "99"]))) = []
  /\ reports_not_found (run os_ok ["p3"; "99"])
  /\ exits_with 0 (run os_ok ["p3"; "99"]).
Proof.
  assert (Hid : ~ In (atoi "99") catalog).
  { vm_compute. intuition discriminate. }
  destruct (C4_unknown_identifier os_ok "p3" "99" [] Hid) as (Hc & _ & _ & Hok & _).
  destruct (Hok eq_refl) as [Hr He].
  repeat split; assumption.
Defined.

(** ** [main]: the life cycle of the handles *)

Lemma dispatch_catalog (os : os_model) :
  dispatch os 0 = main_exp_id_0 os
  /\ dispatch os 1 = main_exp_id_1 os
  /\ dispatch os 2 = main_exp_id_2 os
  /\ dispatch os 3 = main_exp_id_3 os
  /\ dispatch os 4 = main_exp_id_4 os.
Proof. repeat split. Qed.

(** C5 (as stated, refuted): in scenario 0 on a system that refuses the
    first thread creation, three handles are constructed, [Start()] is
    called once, on application 1, and [Join()] is never called. *)
Lemma C5_create_denied_breaks_lifecycle :
  ~ (forall os prog arg rest,
        In (atoi arg) catalog ->
        lifecycle_complete (trace (snd (run os (prog :: arg :: rest))))).
Proof.
  intros H.
  assert (Hid : In (atoi "0") catalog) by (vm_compute; left; reflexivity).
  destruct (H os_create_denied "p3" "0" [] Hid) as (hs & Hlen & _ & Hcalls).
  apply (f_equal (@List.length call)) in Hcalls.
  rewrite !length_app, !length_map, Hlen in Hcalls.
  vm_compute in Hcalls. discriminate Hcalls.
Qed.

Lemma NoDup_three_apps (k1 k2 k3 : kind) : NoDup [(k1, 1); (k2, 2); (k3, 3)].
Proof.
  repeat constructor; simpl; intuition congruence.
Qed.

(** C5 (amended): for every scenario identifier of the catalog, when the
    memory lock, every thread creation and every join succeed, exactly
    three handles are constructed, then [Start()] is called once on each in
    that order, then [Join()] once on each in the same order, and the
    process exits with code 0. *)
Theorem C5_lifecycle_when_system_cooperates :
  forall os prog arg rest,
    In (atoi arg) catalog ->
    os_mlockall os = 0 ->
    (forall k, os_pthread_create_ret os k = 0) ->
    (forall k, os_pthread_join os k = 0) ->
    let out := run os (prog :: arg :: rest) in
    lifecycle_complete (trace (snd out))
    /\ List.length (filter is_Start (trace (snd out))) = 3%nat
    /\ List.length (filter is_Join (trace (snd out))) = 3%nat
    /\ exits_with 0 out.
Proof.
  intros os prog arg rest Hid Hlock Hcreate Hjoin out. subst out. unfold run.
  rewrite main_with_argument.
  destruct (dispatch_catalog os) as (D0 & D1 & D2 & D3 & D4).
  unfold catalog in Hid. simpl in Hid.
  destruct Hid as [<- | [<- | [<- | [<- | [<- | []]]]]];
    [rewrite D0 | rewrite D1 | rewrite D2 | rewrite D3 | rewrite D4];
    explore; try os_contradiction;
    (split; [ | repeat split]);
    (eexists [(_, 1); (_, 2); (_, 3)];
     split; [reflexivity | split; [apply NoDup_three_apps | reflexivity]]).
Qed.

Lemma C5_lifecycle_when_system_cooperates_witness :
  In (atoi "3") catalog
  /\ lifecycle_complete (trace (snd (run os_ok ["p3"; "3"])))
  /\ exits_with 0 (run os_ok ["p3"; "3"]).
Proof.
  assert (Hid : In (atoi "3") catalog) by (vm_compute; do 3 right; left; reflexivity).
  destruct (C5_lifecycle_when_system_cooperates os_ok "p3" "3" [] Hid eq_refl
              (fun _ => eq_refl) (fun _ => eq_refl)) as (Hl & _ & _ & He).
  repeat split; assumption.
Defined.

(** ** The memory lock *)

(** C6: in every run, whatever the arguments and the system, [mlockall]
    is called exactly once, and no handle is constructed or started and no
    thread is created before that call; when the lock is denied the run
    ends with the thrown error "mlockall failed: ..." and no handle is ever
    started, no thread ever created. *)
Theorem C6_lock_once_before_any_start :
  forall os argv,
    let out := run os argv in
    (exists pre post,
        trace (snd out)
        = (pre ++ Ev_mlockall (Z.lor MCL_CURRENT MCL_FUTURE) (os_mlockall os) :: post)%list
        /\ forallb before_lock_ok pre = true
        /\ existsb is_mlockall post = false)
    /\ List.length (filter is_mlockall (trace (snd out))) = 1%nat
    /\ (os_mlockall os <> 0 ->
        fst out = Thrown (runtime_error ("mlockall failed: " ++ os_strerror os (os_errno os)))
        /\ filter is_Start (trace (snd out)) = []
        /\ filter is_pthread_create (trace (snd out)) = []
        /\ spawned (trace (snd out)) = []).
Proof.
  intros os argv out. subst out. unfold run, main.
  set (id := atoi _). clearbody id.
  destruct (Z.of_nat (List.length argv) <? 2);
    explore;
    (split;
     [ first [ exists []; eexists; split; [reflexivity | split; reflexivity]
             | eexists [Ev_stderr _]; eexists; split; [reflexivity | split; reflexivity] ]
     | split;
       [ reflexivity
       | intros Hne;
         first [ os_contradiction
               | split; [reflexivity | split; [reflexivity | split; reflexivity]] ] ] ]).
Qed.

Lemma C6_lock_once_before_any_start_witness :
  os_mlockall os_lock_denied <> 0
  /\ fst (run os_lock_denied ["p3"; "2"])
     = Thrown (runtime_error "mlockall failed: Cannot allocate memory")
  /\ filter is_Start (trace (snd (run os_lock_denied ["p3"; "2"]))) = [].
Proof.
  assert (H : os_mlockall os_lock_denied <> 0) by (simpl; lia).
  destruct (C6_lock_once_before_any_start os_lock_denied ["p3"; "2"]) as (_ & _ & Hd).
  destruct (Hd H) as (Hr & Hs & _).
  split; [exact H | split; [exact Hr | exact Hs]].
Defined.

(** ** [ThreadRT::Start] *)

Lemma Start_attr_valid (this : ThreadRT) :
  valid_rt_request this ->
  Start_attr this
  = {| attr_schedpolicy := rt_policy_ this;
       attr_sched_priority := rt_priority_ this;
       attr_stacksize := 1048576;
       attr_inheritsched := PTHREAD_EXPLICIT_SCHED |}.
Proof.
  intros [Hpol Hprio]. unfold Start_attr, pthread_attr_setschedpolicy.
  assert (Hp : ((rt_policy_ this =? SCHED_OTHER) || (rt_policy_ this =? SCHED_FIFO)
                || (rt_policy_ this =? SCHED_RR)) = true).
  { destruct Hpol as [-> | ->]; reflexivity. }
  rewrite Hp. cbn [snd]. unfold pthread_attr_setschedparam. cbn [attr_schedpolicy].
  assert (Hq : ((sched_get_priority_min (rt_policy_ this) <=? rt_priority_ this)
                && (rt_priority_ this <=? sched_get_priority_max (rt_policy_ this))) = true).
  { apply andb_true_iff.
    destruct Hpol as [-> | ->]; split; apply Z.leb_le;
      unfold sched_get_priority_min, sched_get_priority_max; simpl; lia. }
  rewrite Hq. reflexivity.
Qed.

Lemma ThreadRT_Start_run (os : os_model) (this : ThreadRT) (w : world) :
  ThreadRT_Start os this w
  = let tv := os_gettimeofday os (n_clock w) in
    let r := os_pthread_create_ret os (n_create w) in
    let t := os_pthread_create_thread os (n_create w) in
    let evs := [Ev_Start RealTime (rt_app_id_ this);
                Ev_attr_init;
                Ev_attr_setschedpolicy (rt_policy_ this);
                Ev_attr_setschedparam (rt_priority_ this);
                Ev_attr_setstacksize 1048576;
                Ev_attr_setinheritsched PTHREAD_EXPLICIT_SCHED;
                Ev_gettimeofday tv;
                Ev_pthread_create (Some (Start_attr this))
                  (RunThreadRT_routine (with_start_time this tv)) r t] in
    if r =? 0
    then (Normal (with_thread (with_start_time this tv) t),
          {| n_create := S (n_create w); n_join := n_join w; n_clock := S (n_clock w);
             trace := trace w ++ evs ++ [Ev_attr_destroy] |})
    else (Thrown (runtime_error ("pthread_create failed: " ++ os_strerror os r)),
          {| n_create := S (n_create w); n_join := n_join w; n_clock := S (n_clock w);
             trace := trace w ++ evs |}).
Proof.
  destruct this as [prio pol th stt app]; destruct w as [nc nj nk tr].
  red_open. unfold Start_attr, with_thread, with_start_time. cbn [rt_policy_ rt_priority_ rt_thread_ rt_start_time rt_app_id_].
  destruct (os_pthread_create_ret os nc =? 0); red_open;
    rewrite <- ?app_assoc; reflexivity.
Qed.

(** C7: [ThreadRT::Start] calls, in this order, the attribute setters with
    the requested policy, the requested priority, a stack of 1 MiB
    (1048576 bytes) and the explicit-scheduling flag, then [gettimeofday]
    for the start time, then [pthread_create] with that attribute object
    and a handle that already holds the start time.  For a FIFO or
    round-robin request with a priority in 1..99 the attribute object holds
    exactly the four requested values.  When [pthread_create] returns a
    non-zero code, [Start] throws an error whose message is
    "pthread_create failed: " followed by the system's text for that code;
    otherwise it returns the handle with its thread and start time set. *)
Theorem C7_ThreadRT_Start :
  forall os this w,
    let out := ThreadRT_Start os this w in
    let tv := os_gettimeofday os (n_clock w) in
    let r := os_pthread_create_ret os (n_create w) in
    let t := os_pthread_create_thread os (n_create w) in
    (exists tail,
        trace (snd out)
        = (trace w ++ [Ev_Start RealTime (rt_app_id_ this);
                      Ev_attr_init;
                      Ev_attr_setschedpolicy (rt_policy_ this);
                      Ev_attr_setschedparam (rt_priority_ this);
                      Ev_attr_setstacksize 1048576;
                      Ev_attr_setinheritsched PTHREAD_EXPLICIT_SCHED;
                      Ev_gettimeofday tv;
                      Ev_pthread_create (Some (Start_attr this))
                        (RunThreadRT_routine (with_start_time this tv)) r t] ++ tail)%list
        /\ (tail = [] \/ tail = [Ev_attr_destroy]))
    /\ (valid_rt_request this ->
        Start_attr this
        = {| attr_schedpolicy := rt_policy_ this;
             attr_sched_priority := rt_priority_ this;
             attr_stacksize := 1024 * 1024;
             attr_inheritsched := PTHREAD_EXPLICIT_SCHED |})
    /\ (r <> 0 ->
        fst out = Thrown (runtime_error ("pthread_create failed: " ++ os_strerror os r)))
    /\ (r = 0 ->
        fst out = Normal (with_thread (with_start_time this tv) t)).
Proof.
  intros os this w out tv r t. subst out.
  rewrite ThreadRT_Start_run. fold tv r t. cbv zeta.
  split; [ | split; [ | split ] ].
  - destruct (r =? 0); cbn [snd trace].
    + exists [Ev_attr_destroy]. split; [reflexivity | right; reflexivity].
    + exists []. split; [ | left; reflexivity].
      rewrite app_nil_r. reflexivity.
  - apply Start_attr_valid.
  - intros Hr. apply Z.eqb_neq in Hr. rewrite Hr. reflexivity.
  - intros Hr. rewrite Hr. reflexivity.
Qed.

Lemma C7_ThreadRT_Start_witness :
  valid_rt_request app1_fifo_80
  /\ os_pthread_create_ret os_create_denied (n_create world0) <> 0
  /\ Start_attr app1_fifo_80
     = {| attr_schedpolicy := SCHED_FIFO; attr_sched_priority := 80;
          attr_stacksize := 1048576; attr_inheritsched := PTHREAD_EXPLICIT_SCHED |}
  /\ fst (ThreadRT_Start os_create_denied app1_fifo_80 world0)
     = Thrown (runtime_error "pthread_create failed: Operation not permitted").
Proof.
  assert (Hv : valid_rt_request app1_fifo_80).
  { split; [left; reflexivity | simpl; lia]. }
  assert (Hr : os_pthread_create_ret os_create_denied (n_create world0) <> 0).
  { simpl. lia. }
  destruct (C7_ThreadRT_Start os_create_denied app1_fifo_80 world0) as (_ & Ha & Hf & _).
  split; [exact Hv | split; [exact Hr | split; [exact (Ha Hv) | exact (Hf Hr)]]].
Defined.

(** ** The default scenario and unparsable arguments *)







(** ** Rounding keeps the sign: facts on the specification of binary64 *)

(** [micro] is the binary64 number nearest to one millionth: it is
    [m * 2^-72] with [|m * 10^6 - 2^72| <= 10^6 / 2], half a unit in the
    last place. *)
Example micro_nearest_to_1e_6 :
  exists m, Prim2SF micro = S754_finite false m (-72)
            /\ 2 * Z.abs (Zpos m * 10 ^ 6 - 2 ^ 72) <= 10 ^ 6.
Proof.
  exists 4722366482869645%positive. split.
  - vm_compute. reflexivity.
  - vm_compute. discriminate.
Qed.

Lemma digits2_pos_bounds (m : positive) :
  2 ^ (Zpos (digits2_pos m) - 1) <= Zpos m < 2 ^ Zpos (digits2_pos m).
Proof.
  induction m as [m IH | m IH | ]; cbn [digits2_pos].
  - rewrite Pos2Z.inj_succ, (Pos2Z.inj_xI m).
    replace (Z.succ (Zpos (digits2_pos m)) - 1) with (Z.succ (Zpos (digits2_pos m) - 1)) by lia.
    rewrite !Z.pow_succ_r by lia.
    set (a := 2 ^ (Zpos (digits2_pos m) - 1)) in *.
    set (b := 2 ^ Zpos (digits2_pos m)) in *. clearbody a b. lia.
  - rewrite Pos2Z.inj_succ, (Pos2Z.inj_xO m).
    replace (Z.succ (Zpos (digits2_pos m)) - 1) with (Z.succ (Zpos (digits2_pos m) - 1)) by lia.
    rewrite !Z.pow_succ_r by lia.
    set (a := 2 ^ (Zpos (digits2_pos m) - 1)) in *.
    set (b := 2 ^ Zpos (digits2_pos m)) in *. clearbody a b. lia.
  - simpl. lia.
Qed.

Lemma shr_1_lower (mrs : shr_record) (k : Z) :
  2 * k <= shr_m mrs -> k <= shr_m (shr_1 mrs).
Proof.
  destruct mrs as [m r s]. cbn [shr_m].
  destruct m as [ | [p | p | ] | [p | p | ] ]; cbn [shr_1 shr_m]; lia.
Qed.

Lemma iter_shr_1_lower (p : positive) :
  forall (mrs : shr_record) (k : Z),
    2 ^ Zpos p * k <= shr_m mrs -> k <= shr_m (iter_pos shr_1 p mrs).
Proof.
  induction p as [p IH | p IH | ]; intros mrs k H; cbn [iter_pos].
  - apply IH, IH, shr_1_lower.
    rewrite (Pos2Z.inj_xI p) in H.
    replace (2 * Zpos p + 1) with (Z.succ (Zpos p + Zpos p)) in H by lia.
    rewrite Z.pow_succ_r, Z.pow_add_r in H by lia. lia.
  - apply IH, IH.
    rewrite (Pos2Z.inj_xO p) in H.
    replace (2 * Zpos p) with (Zpos p + Zpos p) in H by lia.
    rewrite Z.pow_add_r in H by lia. lia.
  - apply shr_1_lower. exact H.
Qed.

Lemma shr_m_of_loc (m : Z) (l : location) : shr_m (shr_record_of_loc m l) = m.
Proof. destruct l as [ | [ | | ] ]; reflexivity. Qed.

Lemma shr_fexp_positive (q : positive) (e : Z) (l : location) :
  emin <= e ->
  1 <= shr_m (fst (shr_fexp prec emax (Zpos q) e l))
  /\ e <= snd (shr_fexp prec emax (Zpos q) e l).
Proof.
  intros He. unfold shr_fexp, shr. cbn [Zdigits2].
  destruct (fexp prec emax (Zpos (digits2_pos q) + e) - e) as [ | p | p ] eqn:Hn;
    cbn [fst snd]; rewrite ?shr_m_of_loc; try lia.
  split; [ | lia].
  apply iter_shr_1_lower. rewrite shr_m_of_loc, Z.mul_1_r.
  assert (Hp : Zpos p = Zpos (digits2_pos q) - 53).
  { unfold fexp, SpecFloat.emin, prec, emax in *. lia. }
  destruct (digits2_pos_bounds q) as [Hlo _].
  apply Z.le_trans with (2 ^ (Zpos (digits2_pos q) - 1)); [ | exact Hlo].
  apply Z.pow_le_mono_r; lia.
Qed.

Lemma round_nearest_even_ge (m : Z) (l : location) : m <= round_nearest_even m l.
Proof.
  destruct l as [ | [ | | ] ]; cbn [round_nearest_even]; try lia.
  destruct (Z.even m); lia.
Qed.

Lemma binary_round_aux_positive (q : positive) (e : Z) (l : location) :
  emin <= e ->
  binary_round_aux prec emax false (Zpos q) e l = S754_infinity false
  \/ exists m' e', binary_round_aux prec emax false (Zpos q) e l = S754_finite false m' e'
                   /\ e <= e'.
Proof.
  intros He. unfold binary_round_aux.
  destruct (shr_fexp_positive q e l He) as [Hm1 He1].
  destruct (shr_fexp prec emax (Zpos q) e l) as [mrs' e'] eqn:E1. cbn [fst snd] in Hm1, He1.
  pose proof (round_nearest_even_ge (shr_m mrs') (loc_of_shr_record mrs')) as Hr.
  destruct (round_nearest_even (shr_m mrs') (loc_of_shr_record mrs')) as [ | q2 | q2 ] eqn:E2;
    try lia.
  assert (He' : emin <= e') by lia.
  destruct (shr_fexp_positive q2 e' loc_Exact He') as [Hm2 He2].
  destruct (shr_fexp prec emax (Zpos q2) e' loc_Exact) as [mrs'' e''] eqn:E3.
  cbn [fst snd] in Hm2, He2.
  destruct (shr_m mrs'') as [ | q3 | q3 ]; try lia.
  destruct (e'' <=? emax - prec).
  - right. exists q3, e''. split; [reflexivity | lia].
  - left. reflexivity.
Qed.

Lemma iter_xO_value (m d : positive) : Zpos (Pos.iter xO m d) = Zpos m * 2 ^ Zpos d.
Proof.
  induction d as [ | d IH] using Pos.peano_ind.
  - simpl. lia.
  - rewrite Pos.iter_succ, Pos2Z.inj_xO, IH, Pos2Z.inj_succ, Z.pow_succ_r by lia. lia.
Qed.

Lemma shl_align_value (mx : positive) (ex ex' : Z) :
  snd (shl_align mx ex ex') = Z.min ex ex'
  /\ Zpos (fst (shl_align mx ex ex')) = Zpos mx * 2 ^ (ex - Z.min ex ex').
Proof.
  unfold shl_align. destruct (ex' - ex) as [ | d | d] eqn:Hd; cbn [fst snd].
  - replace (Z.min ex ex') with ex by lia. rewrite Z.sub_diag. simpl. lia.
  - replace (Z.min ex ex') with ex by lia. rewrite Z.sub_diag. simpl. lia.
  - replace (Z.min ex ex') with ex' by lia. split; [reflexivity | ].
    rewrite iter_xO_value. replace (ex - ex') with (Zpos d) by lia. reflexivity.
Qed.

Lemma fexp_ge_emin (z : Z) : emin <= fexp prec emax z.
Proof. unfold fexp. lia. Qed.

Lemma binary_round_positive (q : positive) (e : Z) :
  emin <= e ->
  binary_round prec emax false q e = S754_infinity false
  \/ exists m' e', binary_round prec emax false q e = S754_finite false m' e'
                   /\ Z.min e (fexp prec emax (Zpos (digits2_pos q) + e)) <= e'.
Proof.
  intros He. unfold binary_round.
  destruct (shl_align_value q e (fexp prec emax (Zpos (digits2_pos q) + e))) as [Hez _].
  destruct (shl_align q e (fexp prec emax (Zpos (digits2_pos q) + e))) as [mz ez].
  cbn [snd] in Hez. subst ez.
  pose proof (fexp_ge_emin (Zpos (digits2_pos q) + e)) as Hf.
  apply binary_round_aux_positive. lia.
Qed.

Lemma valid_finite_digits (s : bool) (m : positive) (e : Z) :
  valid_binary (S754_finite s m e) = true ->
  emin <= e /\ Zpos (digits2_pos m) <= 53 /\ (emin < e -> Zpos (digits2_pos m) = 53).
Proof.
  cbn [SpecFloat.valid_binary]. unfold bounded, canonical_mantissa.
  intros H. apply andb_true_iff in H. destruct H as [H _].
  apply Z.eqb_eq in H. unfold fexp, SpecFloat.emin, prec, emax in *. lia.
Qed.

Lemma of_uint63_ge_one (s : Z) :
  1 <= s < 2 ^ 63 -> sf_ge_one (Prim2SF (PrimFloat.of_uint63 (Uint63.of_Z s))).
Proof.
  intros Hs.
  pose proof (Prim2SF_valid (PrimFloat.of_uint63 (Uint63.of_Z s))) as Hv.
  rewrite of_uint63_spec in *.
  rewrite Uint63.of_Z_spec in *.
  change Uint63.wB with (2 ^ 63) in *.
  rewrite Z.mod_small in * by lia.
  destruct s as [ | q | q ]; try lia. cbn [binary_normalize] in *.
  destruct (binary_round_positive q 0) as [Hinf | (m' & e' & Hfin & He')].
  { unfold SpecFloat.emin, prec, emax. lia. }
  - left. exact Hinf.
  - right. exists m', e'. rewrite Hfin in *. split; [reflexivity | ].
    assert (H52 : -52 <= e').
    { destruct (digits2_pos_bounds q) as [_ _].
      assert (0 < Zpos (digits2_pos q)) by lia.
      unfold fexp, SpecFloat.emin, prec, emax in He'. lia. }
    split; [exact H52 | ].
    apply (valid_finite_digits false m' e' Hv).
    unfold SpecFloat.emin, prec, emax. lia.
Qed.

Lemma SFleb_minus_one_finite (my : positive) (ey : Z) :
  SFleb sf_minus_one (S754_finite true my ey) = true ->
  ey < -52 \/ (ey = -52 /\ Zpos my <= 4503599627370496).
Proof.
  unfold SFleb, SFcompare, sf_minus_one.
  destruct (Z.compare_spec (-52) ey) as [He | He | He].
  - change (Pos.compare_cont Eq 4503599627370496 my)
      with (Z.compare (Zpos 4503599627370496) (Zpos my)).
    destruct (Z.compare_spec (Zpos 4503599627370496) (Zpos my)) as [Hm | Hm | Hm];
      cbn [CompOpp]; intros H; try discriminate H; right; (split; lia).
  - intros H. discriminate H.
  - intros _. left. lia.
Qed.

Lemma SFadd_ge_one_ge_minus_one (x y : spec_float) :
  sf_ge_one x ->
  valid_binary y = true ->
  SFleb sf_minus_one y = true ->
  SFleb (S754_zero false) (SFadd prec emax x y) = true.
Proof.
  intros [-> | (mx & ex & -> & Hex & Hdx)] Hvy Hy.
  - destruct y as [sy | [ | ] | | sy my ey]; try reflexivity; discriminate Hy.
  - destruct y as [sy | [ | ] | | sy my ey]; try reflexivity; try discriminate Hy.
    destruct (valid_finite_digits sy my ey Hvy) as (Hey & Hdy & _).
    cbn [SFadd].
    destruct (shl_align_value mx ex (Z.min ex ey)) as [_ HX].
    destruct (shl_align_value my ey (Z.min ex ey)) as [_ HY].
    set (X := Zpos (fst (shl_align mx ex (Z.min ex ey)))) in *.
    set (Y := Zpos (fst (shl_align my ey (Z.min ex ey)))) in *.
    change (cond_Zopp false X) with X.
    assert (HXpos : 0 < X) by (subst X; lia).
    assert (HYpos : 0 < Y) by (subst Y; lia).
    assert (HD : 0 <= X + cond_Zopp sy Y).
    { destruct sy; cbn [cond_Zopp]; [ | lia].
      destruct (digits2_pos_bounds mx) as [Hmx _]. rewrite Hdx in Hmx.
      change (2 ^ (53 - 1)) with 4503599627370496 in Hmx.
      destruct (digits2_pos_bounds my) as [_ Hmy].
      assert (Hmy' : Zpos my < 2 ^ 53).
      { apply Z.lt_le_trans with (2 ^ Zpos (digits2_pos my)); [exact Hmy | ].
        apply Z.pow_le_mono_r; lia. }
      change (2 ^ 53) with 9007199254740992 in Hmy'.
      destruct (SFleb_minus_one_finite my ey Hy) as [He | [He Hle]].
      - replace (Z.min ex (Z.min ex ey)) with ey in HX by lia.
        replace (Z.min ey (Z.min ex ey)) with ey in HY by lia.
        rewrite Z.sub_diag in HY. change (2 ^ 0) with 1 in HY.
        assert (Hp : 2 ^ 1 <= 2 ^ (ex - ey)) by (apply Z.pow_le_mono_r; lia).
        change (2 ^ 1) with 2 in Hp.
        set (P := 2 ^ (ex - ey)) in *. clearbody P. nia.
      - replace (Z.min ex (Z.min ex ey)) with ey in HX by lia.
        replace (Z.min ey (Z.min ex ey)) with ey in HY by lia.
        rewrite Z.sub_diag in HY. change (2 ^ 0) with 1 in HY.
        assert (Hp : 2 ^ 0 <= 2 ^ (ex - ey)) by (apply Z.pow_le_mono_r; lia).
        change (2 ^ 0) with 1 in Hp.
        set (P := 2 ^ (ex - ey)) in *. clearbody P. nia. }
    destruct (X + cond_Zopp sy Y) as [ | q | q ]; try lia.
    + reflexivity.
    + cbn [binary_normalize].
      destruct (binary_round_positive q (Z.min ex ey)) as [-> | (m' & e' & -> & _)].
      { unfold SpecFloat.emin, prec, emax in *. lia. }
      * reflexivity.
      * reflexivity.
Qed.

Lemma Prim2SF_minus_one : Prim2SF (-1)%float = sf_minus_one.
Proof. vm_compute. reflexivity. Qed.

Lemma Prim2SF_zero : Prim2SF 0%float = S754_zero false.
Proof. vm_compute. reflexivity. Qed.

Lemma add_ge_one_ge_minus_one (S P : float) :
  sf_ge_one (Prim2SF S) ->
  (-1 <=? P)%float = true ->
  (0 <=? S + P)%float = true.
Proof.
  intros HS HP. rewrite leb_spec in *. rewrite add_spec, Prim2SF_zero.
  rewrite Prim2SF_minus_one in HP.
  apply SFadd_ge_one_ge_minus_one; [exact HS | apply Prim2SF_valid | exact HP].
Qed.

(** ** The microsecond term, by exhaustive evaluation *)

Lemma all_in_block_spec (f : Z -> bool) (depth : nat) :
  forall lo, all_in_block f depth lo = true ->
             forall z, lo <= z < lo + 2 ^ Z.of_nat depth -> f z = true.
Proof.
  induction depth as [ | d IH]; intros lo H z Hz.
  - change (2 ^ Z.of_nat 0) with 1 in Hz. replace z with lo by lia. exact H.
  - cbn [all_in_block] in H. apply andb_true_iff in H. destruct H as [H1 H2].
    rewrite Nat2Z.inj_succ, Z.pow_succ_r in Hz by lia.
    destruct (Z_lt_le_dec z (lo + 2 ^ Z.of_nat d)) as [Hlt | Hge].
    + apply (IH lo H1). lia.
    + apply (IH _ H2). lia.
Qed.

Lemma all_micros_ok : all_in_block micros_ok 20 0 = true.
Proof. vm_compute. reflexivity. Qed.

Lemma micros_ok_below (m : Z) :
  0 <= m < 1000000 ->
  (0 <=? long_to_double 0 + scaled_micros m)%float = true
  /\ (-1 <=? scaled_micros m)%float = true
  /\ (-1 <=? scaled_micros (- m))%float = true.
Proof.
  intros Hm.
  assert (H : micros_ok m = true).
  { apply (all_in_block_spec micros_ok 20 0 all_micros_ok).
    change (2 ^ Z.of_nat 20) with 1048576. lia. }
  unfold micros_ok in H.
  replace (1000000 <=? m) with false in H by (symmetry; apply Z.leb_gt; lia).
  cbn [orb] in H. apply andb_true_iff in H. destruct H as [H H3].
  apply andb_true_iff in H. destruct H as [H1 H2]. auto.
Qed.

Lemma scaled_micros_ge_minus_one (m : Z) :
  -1000000 < m < 1000000 -> (-1 <=? scaled_micros m)%float = true.
Proof.
  intros Hm. destruct (Z_lt_le_dec m 0) as [Hneg | Hpos].
  - destruct (micros_ok_below (- m)) as (_ & _ & H); [lia | ].
    rewrite Z.opp_involutive in H. exact H.
  - destruct (micros_ok_below m) as (_ & H & _); [lia | exact H].
Qed.

Lemma wrap_long_small (z : Z) : - 2 ^ 63 <= z < 2 ^ 63 -> wrap_long z = z.
Proof.
  intros Hz. unfold wrap_long, wrap_signed.
  change (2 ^ (64 - 1)) with (2 ^ 63). change (2 ^ 64) with (2 * 2 ^ 63).
  rewrite Z.mod_small by lia. lia.
Qed.

Lemma elapsed_time_formula (st et : timeval) :
  timeval_wf st -> timeval_wf et -> timeval_le st et ->
  elapsed_time st et
  = (long_to_double (tv_sec et - tv_sec st)
     + long_to_double (tv_usec et - tv_usec st) * micro)%float.
Proof.
  intros [Hs1 Hs2] [He1 He2] Hle. unfold elapsed_time. cbv zeta.
  rewrite !wrap_long_small; [reflexivity | | ]; unfold timeval_le in Hle; lia.
Qed.

Lemma elapsed_time_nonneg (st et : timeval) :
  timeval_wf st -> timeval_wf et -> timeval_le st et ->
  (0 <=? elapsed_time st et)%float = true.
Proof.
  intros Hwf1 Hwf2 Hle. rewrite elapsed_time_formula by assumption.
  destruct Hwf1 as [Hs1 Hs2]. destruct Hwf2 as [He1 He2].
  set (s := tv_sec et - tv_sec st). set (m := tv_usec et - tv_usec st).
  fold (scaled_micros m).
  destruct Hle as [Hlt | [Heq Hu]].
  - apply add_ge_one_ge_minus_one.
    + unfold long_to_double.
      replace (s =? LONG_MIN) with false by (symmetry; apply Z.eqb_neq; unfold LONG_MIN; lia).
      replace (s <? 0) with false by (symmetry; apply Z.ltb_ge; lia).
      apply of_uint63_ge_one. lia.
    + apply scaled_micros_ge_minus_one. lia.
  - replace s with 0 by lia.
    destruct (micros_ok_below m) as (H & _ & _); [lia | exact H].
Qed.

(** ** What [Join] reports *)



(** * Further properties of the code *)

(** Rewrite with the tests the path exploration recorded. *)
Ltac use_tests :=
  repeat match goal with
         | H : (?a =? ?b) = _ |- context [?a =? ?b] => rewrite H
         end.

(** Every path of [main] for arbitrary arguments. *)
Ltac main_paths os argv :=
  unfold run, main;
  let id := fresh "id" in
  set (id := atoi _); clearbody id;
  destruct (Z.of_nat (List.length argv) <? 2);
  explore.

(** ** [ThreadNRT::Start] *)

Lemma ThreadNRT_Start_run (os : os_model) (this : ThreadNRT) (w : world) :
  ThreadNRT_Start os this w
  = let tv := os_gettimeofday os (n_clock w) in
    let r := os_pthread_create_ret os (n_create w) in
    let t := os_pthread_create_thread os (n_create w) in
    let w' := {| n_create := S (n_create w); n_join := n_join w; n_clock := S (n_clock w);
                 trace := trace w ++ [Ev_Start Standard (nrt_app_id_ this);
                                      Ev_gettimeofday tv;
                                      Ev_pthread_create None
                                        (RunThreadNRT_routine (nrt_with_start_time this tv)) r t] |} in
    if r =? 0
    then (Normal (nrt_with_thread (nrt_with_start_time this tv) t), w')
    else (Thrown (runtime_error ("pthread_create failed: " ++ os_strerror os r)), w').
Proof.
  destruct this as [th stt app]; destruct w as [nc nj nk tr].
  red_open. unfold nrt_with_thread, nrt_with_start_time.
  cbn [nrt_thread_ nrt_start_time nrt_app_id_].
  destruct (os_pthread_create_ret os nc =? 0); red_open;
    rewrite <- ?app_assoc; reflexivity.
Qed.

(** X1: [ThreadNRT::Start] reads the clock, then calls [pthread_create]
    with no attribute object (the system's defaults) and a handle that
    already holds the start time, and does nothing else.  A non-zero return
    code makes it throw "pthread_create failed: " followed by the system's
    text for the code; on 0 the handle holds the new thread and the start
    time. *)
Theorem X1_ThreadNRT_Start_default_attributes :
  forall os this w,
    let out := ThreadNRT_Start os this w in
    let tv := os_gettimeofday os (n_clock w) in
    let r := os_pthread_create_ret os (n_create w) in
    let t := os_pthread_create_thread os (n_create w) in
    trace (snd out)
    = (trace w ++ [Ev_Start Standard (nrt_app_id_ this);
                  Ev_gettimeofday tv;
                  Ev_pthread_create None
                    (RunThreadNRT_routine (nrt_with_start_time this tv)) r t])%list
    /\ (r <> 0 ->
        fst out = Thrown (runtime_error ("pthread_create failed: " ++ os_strerror os r)))
    /\ (r = 0 ->
        fst out = Normal {| nrt_thread_ := Some t; nrt_start_time := Some tv;
                            nrt_app_id_ := nrt_app_id_ this |}).
Proof.
  intros os this w out tv r t. subst out.
  rewrite ThreadNRT_Start_run. fold tv r t. cbv zeta.
  split; [ | split].
  - destruct (r =? 0); reflexivity.
  - intros Hr. apply Z.eqb_neq in Hr. rewrite Hr. reflexivity.
  - intros Hr. rewrite Hr. reflexivity.
Qed.

Lemma X1_ThreadNRT_Start_default_attributes_witness :
  os_pthread_create_ret os_create_denied (n_create world0) <> 0
  /\ fst (ThreadNRT_Start os_create_denied new_app2 world0)
     = Thrown (runtime_error "pthread_create failed: Operation not permitted").
Proof.
  assert (Hr : os_pthread_create_ret os_create_denied (n_create world0) <> 0).
  { simpl. lia. }
  destruct (X1_ThreadNRT_Start_default_attributes os_create_denied new_app2 world0)
    as (_ & Hf & _).
  split; [exact Hr | exact (Hf Hr)].
Defined.

(** ** [Start] followed by [Join] *)

(** X2: a handle returned by a successful [ThreadRT::Start] can be joined
    in any later world: [Join] waits for exactly the thread that
    [pthread_create] made for this handle; when the join succeeds it reads
    the clock and reports, under the handle's application number, the
    elapsed time from the clock reading of [Start] to this one; when the
    join fails it throws "pthread_join failed: ..." and neither reads the
    clock nor reports. *)
Theorem X2_ThreadRT_Start_then_Join :
  forall os this w this' w1 w2,
    ThreadRT_Start os this w = (Normal this', w1) ->
    let t := os_pthread_create_thread os (n_create w) in
    let st := os_gettimeofday os (n_clock w) in
    let r := os_pthread_join os (n_join w2) in
    let et := os_gettimeofday os (n_clock w2) in
    let app := rt_app_id_ this in
    (r = 0 ->
     fst (ThreadRT_Join os this' w2) = Normal tt
     /\ trace (snd (ThreadRT_Join os this' w2))
        = (trace w2 ++ [Ev_Join RealTime app; Ev_pthread_join t 0; Ev_gettimeofday et;
                        Ev_runtime app (elapsed_time st et); Ev_ends RealTime t app])%list)
    /\ (r <> 0 ->
        fst (ThreadRT_Join os this' w2)
        = Thrown (runtime_error ("pthread_join failed: " ++ os_strerror os r))
        /\ trace (snd (ThreadRT_Join os this' w2))
           = (trace w2 ++ [Ev_Join RealTime app; Ev_pthread_join t r])%list).
Proof.
  intros os this w this' w1 w2 HS t st r et app.
  rewrite ThreadRT_Start_run in HS. cbv zeta in HS.
  destruct (os_pthread_create_ret os (n_create w) =? 0); [ | discriminate HS].
  injection HS as Hthis _. subst this' t st r et app.
  erewrite ThreadRT_Join_run; [ | reflexivity | reflexivity].
  cbv zeta. cbn [rt_app_id_ with_thread with_start_time].
  split; intros Hr.
  - rewrite Hr. split; reflexivity.
  - apply Z.eqb_neq in Hr. rewrite Hr. split; reflexivity.
Qed.

Lemma X2_ThreadRT_Start_then_Join_witness :
  ThreadRT_Start os_ok app1_fifo_80 world0
  = (Normal started_app1, snd (ThreadRT_Start os_ok app1_fifo_80 world0))
  /\ fst (ThreadRT_Join os_ok started_app1 world_after_starts) = Normal tt.
Proof.
  assert (HS : ThreadRT_Start os_ok app1_fifo_80 world0
               = (Normal started_app1, snd (ThreadRT_Start os_ok app1_fifo_80 world0))).
  { vm_compute. reflexivity. }
  destruct (X2_ThreadRT_Start_then_Join os_ok app1_fifo_80 world0 started_app1 _
              world_after_starts HS) as [Hok _].
  split; [exact HS | exact (proj1 (Hok eq_refl))].
Defined.

(** X3: a handle returned by a successful [ThreadNRT::Start] can be joined
    in any later world: [Join] waits for exactly the thread that
    [pthread_create] made for this handle and, whatever [pthread_join]
    returns, reads the clock and reports the elapsed time from the clock
    reading of [Start] to this one under the handle's application number,
    then returns normally. *)
Theorem X3_ThreadNRT_Start_then_Join :
  forall os this w this' w1 w2,
    ThreadNRT_Start os this w = (Normal this', w1) ->
    let t := os_pthread_create_thread os (n_create w) in
    let st := os_gettimeofday os (n_clock w) in
    let r := os_pthread_join os (n_join w2) in
    let et := os_gettimeofday os (n_clock w2) in
    let app := nrt_app_id_ this in
    fst (ThreadNRT_Join os this' w2) = Normal tt
    /\ trace (snd (ThreadNRT_Join os this' w2))
       = (trace w2 ++ [Ev_Join Standard app; Ev_pthread_join t r; Ev_gettimeofday et;
                       Ev_runtime app (elapsed_time st et); Ev_ends Standard t app])%list.
Proof.
  intros os this w this' w1 w2 HS t st r et app.
  rewrite ThreadNRT_Start_run in HS. cbv zeta in HS.
  destruct (os_pthread_create_ret os (n_create w) =? 0); [ | discriminate HS].
  injection HS as Hthis _. subst this' t st r et app.
  erewrite ThreadNRT_Join_run; [ | reflexivity | reflexivity].
  cbv zeta. split; reflexivity.
Qed.

Lemma X3_ThreadNRT_Start_then_Join_witness :
  ThreadNRT_Start os_ok new_app2 world0
  = (Normal started_first_app2, snd (ThreadNRT_Start os_ok new_app2 world0))
  /\ fst (ThreadNRT_Join os_ok started_first_app2 world_after_starts) = Normal tt.
Proof.
  assert (HS : ThreadNRT_Start os_ok new_app2 world0
               = (Normal started_first_app2, snd (ThreadNRT_Start os_ok new_app2 world0))).
  { vm_compute. reflexivity. }
  split; [exact HS | ].
  exact (proj1 (X3_ThreadNRT_Start_then_Join os_ok new_app2 world0 started_first_app2 _
                  world_after_starts HS)).
Defined.

(** ** How a run of [main] can end *)

(** X4: whatever the arguments and the system, a run of [main] ends in one
    of four ways: it returns 0; or it is ended by the error of a denied
    memory lock, of a refused thread creation, or of a failed join, with
    the system's text for the code in the message.  It never returns
    another exit code and never joins a handle that was not started. *)
Theorem X4_main_outcomes :
  forall os argv,
    let out := run os argv in
    fst out = Normal 0
    \/ fst out = Thrown (runtime_error ("mlockall failed: " ++ os_strerror os (os_errno os)))
    \/ (exists k, os_pthread_create_ret os k <> 0
                  /\ fst out = Thrown (runtime_error ("pthread_create failed: "
                                         ++ os_strerror os (os_pthread_create_ret os k))))
    \/ (exists k, os_pthread_join os k <> 0
                  /\ fst out = Thrown (runtime_error ("pthread_join failed: "
                                         ++ os_strerror os (os_pthread_join os k)))).
Proof.
  intros os argv out. subst out.
  main_paths os argv;
    first
      [ left; reflexivity
      | right; left; reflexivity
      | right; right; left; eexists; split; [ | reflexivity]; apply Z.eqb_neq; assumption
      | right; right; right; eexists; split; [ | reflexivity]; apply Z.eqb_neq; assumption ].
Qed.

(** X5: when a thread creation is refused, in any run, the run is ended by
    the "pthread_create failed: ..." error at once: fewer than three
    threads were spawned, [Join()] is never called, no thread is joined and
    no run time is reported, so the threads already running are left
    behind. *)
Theorem X5_failed_creation_aborts_scenario :
  forall os argv,
    let out := run os argv in
    existsb is_failed_create (trace (snd out)) = true ->
    (exists k, fst out = Thrown (runtime_error ("pthread_create failed: "
                                   ++ os_strerror os (os_pthread_create_ret os k))))
    /\ filter is_Join (trace (snd out)) = []
    /\ joined_threads (trace (snd out)) = []
    /\ runtime_reports (trace (snd out)) = []
    /\ (List.length (spawned (trace (snd out))) < 3)%nat.
Proof.
  intros os argv out. subst out.
  main_paths os argv;
    cbn [existsb is_failed_create orb spawned List.length]; use_tests;
    cbn [negb orb spawned List.length];
    intros H; try discriminate H;
    (split; [eexists; reflexivity | repeat split; cbn; lia]).
Qed.

Lemma X5_failed_creation_aborts_scenario_witness :
  existsb is_failed_create (trace (snd (run os_create_denied ["p3"; "0"]))) = true
  /\ filter is_Join (trace (snd (run os_create_denied ["p3"; "0"]))) = [].
Proof.
  assert (H : existsb is_failed_create (trace (snd (run os_create_denied ["p3"; "0"]))) = true).
  { vm_compute. reflexivity. }
  destruct (X5_failed_creation_aborts_scenario os_create_denied ["p3"; "0"] H) as (_ & Hj & _).
  split; [exact H | exact Hj].
Defined.

(** X6: in every run, the threads handed to [pthread_join] are, in the same
    order, the first threads that [pthread_create] made: [main] never joins
    a thread it did not create and never joins one twice. *)
Theorem X6_joins_follow_creations :
  forall os argv,
    let tr := trace (snd (run os argv)) in
    exists rest, created_threads tr = (joined_threads tr ++ rest)%list.
Proof.
  intros os argv tr. subst tr.
  main_paths os argv;
    cbn [created_threads joined_threads]; use_tests; cbn [app];
    eexists; reflexivity.
Qed.

Lemma timeval_le_trans (a b c : timeval) :
  timeval_le a b -> timeval_le b c -> timeval_le a c.
Proof. unfold timeval_le. lia. Qed.

(** X7: for a scenario of the catalog, when the memory lock, the three
    thread creations and the first two joins succeed (the third handle is
    always a standard one, whose join result is not looked at), the clock
    is read six times, every created thread is joined, and exactly three
    run times are reported, for applications 1, 2 and 3 in this order:
    application k gets the elapsed time from the k-th clock reading to the
    (k+3)-th.  When the six readings are well formed and do not go back,
    none of the three run times is negative. *)
Theorem X7_cooperative_run_reports :
  forall os prog arg rest,
    In (atoi arg) catalog ->
    os_mlockall os = 0 ->
    (forall k, os_pthread_create_ret os k = 0) ->
    os_pthread_join os 0%nat = 0 ->
    os_pthread_join os 1%nat = 0 ->
    let tr := trace (snd (run os (prog :: arg :: rest))) in
    let clock := os_gettimeofday os in
    runtime_reports tr
    = [(1, elapsed_time (clock 0%nat) (clock 3%nat));
       (2, elapsed_time (clock 1%nat) (clock 4%nat));
       (3, elapsed_time (clock 2%nat) (clock 5%nat))]
    /\ created_threads tr = joined_threads tr
    /\ List.length (filter is_gettimeofday tr) = 6%nat
    /\ ((forall k, (k <= 5)%nat -> timeval_wf (clock k)) ->
        (forall k, (k < 5)%nat -> timeval_le (clock k) (clock (S k))) ->
        Forall (fun report => (0 <=? snd report)%float = true) (runtime_reports tr)).
Proof.
  intros os prog arg rest Hid Hlock Hcreate Hj0 Hj1 tr clock.
  assert (Hreports : runtime_reports tr
                     = [(1, elapsed_time (clock 0%nat) (clock 3%nat));
                        (2, elapsed_time (clock 1%nat) (clock 4%nat));
                        (3, elapsed_time (clock 2%nat) (clock 5%nat))]
                     /\ created_threads tr = joined_threads tr
                     /\ List.length (filter is_gettimeofday tr) = 6%nat).
  { subst tr clock. unfold run.
    rewrite main_with_argument.
    destruct (dispatch_catalog os) as (D0 & D1 & D2 & D3 & D4).
    unfold catalog in Hid. simpl in Hid.
    destruct Hid as [<- | [<- | [<- | [<- | [<- | []]]]]];
      [rewrite D0 | rewrite D1 | rewrite D2 | rewrite D3 | rewrite D4];
      explore; try os_contradiction;
      try match goal with
          | H : (os_pthread_join os 0%nat =? 0) = false |- _ => rewrite Hj0 in H; discriminate H
          | H : (os_pthread_join os 1%nat =? 0) = false |- _ => rewrite Hj1 in H; discriminate H
          end;
      cbn [created_threads joined_threads runtime_reports]; rewrite !Hcreate;
      repeat split. }
  destruct Hreports as (Hr & Hc & Hn).
  split; [exact Hr | split; [exact Hc | split; [exact Hn | ]]].
  intros Hwf Hstep. rewrite Hr.
  assert (H3 : forall k, (k <= 2)%nat -> timeval_le (clock k) (clock (3 + k)%nat)).
  { intros k Hk.
    apply timeval_le_trans with (clock (S k)); [apply Hstep; lia | ].
    apply timeval_le_trans with (clock (S (S k))); apply Hstep; lia. }
  repeat constructor; cbn [snd]; apply elapsed_time_nonneg;
    try (apply Hwf; lia);
    [apply (H3 0%nat) | apply (H3 1%nat) | apply (H3 2%nat)]; lia.
Qed.

Lemma X7_cooperative_run_reports_witness :
  In (atoi "2") catalog
  /\ List.length (runtime_reports (trace (snd (run os_ok ["p3"; "2"])))) = 3%nat
  /\ Forall (fun report => (0 <=? snd report)%float = true)
       (runtime_reports (trace (snd (run os_ok ["p3"; "2"])))).
Proof.
  assert (Hid : In (atoi "2") catalog) by (vm_compute; do 2 right; left; reflexivity).
  destruct (X7_cooperative_run_reports os_ok "p3" "2" [] Hid eq_refl
              (fun _ => eq_refl) eq_refl eq_refl) as (Hr & _ & _ & Hnn).
  split; [exact Hid | split].
  - rewrite Hr. reflexivity.
  - apply Hnn.
    + intros k Hk. unfold timeval_wf. cbn [os_gettimeofday os_ok tv_sec tv_usec].
      change (2 ^ 63) with 9223372036854775808. lia.
    + intros k Hk. left. cbn [os_gettimeofday os_ok tv_sec tv_usec]. lia.
Defined.

(** ** The spawned threads *)

Lemma routine_ends_with_workload (set_cpu : bool) (r : start_routine) :
  List.length (filter is_BusyCal (run_routine set_cpu r)) = 1%nat
  /\ exists before,
      run_routine set_cpu r
      = (before ++ [T_print_running (routine_app_id r); T_BusyCal])%list.
Proof.
  destruct r as [data | data], set_cpu; (split; [reflexivity | ]); cbn.
  - exists [T_setaffinity (CPU_SET 1 CPU_ZERO); T_print_cpu RealTime; T_getschedparam; T_print_sched].
    reflexivity.
  - exists [T_print_cpu RealTime; T_getschedparam; T_print_sched]. reflexivity.
  - exists [T_setaffinity (CPU_SET 1 CPU_ZERO); T_print_cpu Standard]. reflexivity.
  - exists [T_print_cpu Standard]. reflexivity.
Qed.

(** X8: in every run the spawned threads belong to applications 1, 2, 3 in
    this order, with none left out before the last one spawned; and each
    spawned thread, with or without the CPU switch, calls the workload
    [BusyCal] exactly once, as its last action, right after announcing its
    own application number. *)
Theorem X8_spawned_threads_in_order_run_workload_once :
  forall os argv,
    let sp := spawned (trace (snd (run os argv))) in
    (exists rest, [1; 2; 3] = (map routine_app_id sp ++ rest)%list)
    /\ (forall r set_cpu,
           In r sp ->
           List.length (filter is_BusyCal (run_routine set_cpu r)) = 1%nat
           /\ exists before,
               run_routine set_cpu r
               = (before ++ [T_print_running (routine_app_id r); T_BusyCal])%list).
Proof.
  intros os argv sp. split.
  - subst sp. main_paths os argv;
      cbn [spawned]; use_tests; cbn [map routine_app_id rt_app_id_ nrt_app_id_ app];
      eexists; reflexivity.
  - intros r set_cpu _. apply routine_ends_with_workload.
Qed.

Lemma X8_spawned_threads_in_order_run_workload_once_witness :
  In app2_of_scenario_0 (spawned (trace (snd (run os_ok ["p3"; "0"]))))
  /\ List.length (filter is_BusyCal (run_routine SET_CPU app2_of_scenario_0)) = 1%nat.
Proof.
  assert (H : In app2_of_scenario_0 (spawned (trace (snd (run os_ok ["p3"; "0"]))))).
  { vm_compute. right. left. reflexivity. }
  split; [exact H | ].
  exact (proj1 (proj2 (X8_spawned_threads_in_order_run_workload_once os_ok ["p3"; "0"])
                  app2_of_scenario_0 SET_CPU H)).
Defined.

(** X9: when the run is ended by a join error, the failing [pthread_join]
    is the last thing the process does, it was called for a real-time
    handle, and the message carries the system's text for its code; all
    three threads had been created, at most two joins were attempted, and
    run times were reported only for the joins before the failing one. *)
Theorem X9_failed_RealTime_join_ends_run :
  forall os argv what,
    let out := run os argv in
    fst out = Thrown (runtime_error ("pthread_join failed: " ++ what)) ->
    (exists before app t r,
        trace (snd out) = (before ++ [Ev_Join RealTime app; Ev_pthread_join t r])%list
        /\ r <> 0
        /\ what = os_strerror os r)
    /\ List.length (created_threads (trace (snd out))) = 3%nat
    /\ (List.length (joined_threads (trace (snd out))) <= 2)%nat
    /\ List.length (runtime_reports (trace (snd out)))
       = pred (List.length (joined_threads (trace (snd out)))).
Proof.
  intros os argv what out. subst out.
  main_paths os argv;
    cbn [String.append]; intros H; try discriminate H;
    injection H as H;
    (split;
     [ match goal with
       | |- exists before app t r, ?tr = _ /\ _ =>
           exists (firstn (List.length tr - 2) tr)
       end;
       do 3 eexists;
       split; [reflexivity | split; [apply Z.eqb_neq; eassumption | symmetry; exact H]]
     | cbn [created_threads joined_threads runtime_reports]; use_tests;
       cbn [List.length pred]; repeat split; lia ]).
Qed.

Lemma X9_failed_RealTime_join_ends_run_witness :
  fst (run os_join_fails ["p3"; "2"])
  = Thrown (runtime_error ("pthread_join failed: " ++ "No such process"))
  /\ List.length (runtime_reports (trace (snd (run os_join_fails ["p3"; "2"])))) = 1%nat.
Proof.
  assert (H : fst (run os_join_fails ["p3"; "2"])
              = Thrown (runtime_error ("pthread_join failed: " ++ "No such process"))).
  { vm_compute. reflexivity. }
  destruct (X9_failed_RealTime_join_ends_run os_join_fails ["p3"; "2"] "No such process" H)
    as (_ & _ & _ & Hn).
  split; [exact H | ]. rewrite Hn. vm_compute. reflexivity.
Defined.

(** ** [setCPU] *)

(** X10: [setCPU(cpu_id)] asks for one affinity mask and nothing else; for
    a CPU index within the mask's size the mask holds that CPU alone; for
    an index outside it (negative, or 1024 and more) the mask is empty. *)
Theorem X10_setCPU_mask :
  forall cpu_id,
    exists set,
      setCPU cpu_id = [T_setaffinity set]
      /\ (0 <= cpu_id < CPU_SETSIZE -> forall c, CPU_ISSET c set = (c =? cpu_id))
      /\ (~ 0 <= cpu_id < CPU_SETSIZE -> forall c, CPU_ISSET c set = false).
Proof.
  intros cpu_id. exists (CPU_SET cpu_id CPU_ZERO). split; [reflexivity | ].
  unfold CPU_SET, CPU_ZERO, CPU_ISSET, CPU_SETSIZE. split.
  - intros Hr c.
    replace ((0 <=? cpu_id) && (cpu_id <? 1024)) with true
      by (symmetry; apply andb_true_iff; split; [apply Z.leb_le | apply Z.ltb_lt]; lia).
    rewrite Z.lor_0_l, Z.shiftl_1_l, Z.pow2_bits_eqb by lia. apply Z.eqb_sym.
  - intros Hr c.
    replace ((0 <=? cpu_id) && (cpu_id <? 1024)) with false.
    + apply Z.bits_0.
    + symmetry. apply andb_false_iff.
      destruct (Z_le_dec 0 cpu_id) as [Hle | Hnle].
      * right. apply Z.ltb_ge. lia.
      * left. apply Z.leb_gt. lia.
Qed.

Lemma X10_setCPU_mask_witness :
  0 <= 3 < CPU_SETSIZE
  /\ exists set, setCPU 3 = [T_setaffinity set]
                 /\ CPU_ISSET 3 set = true /\ CPU_ISSET 1 set = false.
Proof.
  assert (Hr : 0 <= 3 < CPU_SETSIZE) by (unfold CPU_SETSIZE; lia).
  split; [exact Hr | ].
  destruct (X10_setCPU_mask 3) as (set & Hs & Hin & _).
  exists set. split; [exact Hs | ].
  split; [exact (Hin Hr 3) | exact (Hin Hr 1)].
Defined.

(** ** The arguments of [main] *)

(** X11: with at least one argument, a run depends on the command line only
    through the integer [atoi] reads from the first argument: the program's
    name, any further argument, and what surrounds the number in the first
    argument change nothing. *)
Theorem X11_main_reads_only_first_argument :
  forall os prog arg rest prog' arg' rest',
    atoi arg = atoi arg' ->
    run os (prog :: arg :: rest) = run os (prog' :: arg' :: rest').
Proof.
  intros os prog arg rest prog' arg' rest' H. unfold run.
  rewrite !main_with_argument, H. reflexivity.
Qed.

Lemma X11_main_reads_only_first_argument_witness :
  atoi "4" = atoi "  +4xyz"
  /\ run os_ok ["p3"; "4"] = run os_ok ["./a.out"; "  +4xyz"; "7"].
Proof.
  assert (H : atoi "4" = atoi "  +4xyz") by (vm_compute; reflexivity).
  split; [exact H | ].
  exact (X11_main_reads_only_first_argument os_ok "p3" "4" [] "./a.out" "  +4xyz" ["7"] H).
Defined.

(** ** [ThreadRT::Start] and requests the library refuses *)

(** X12: [ThreadRT::Start] does not look at what the attribute setters
    return.  Whatever the handle asks for, the attribute object handed to
    [pthread_create] has a stack of 1048576 bytes and the explicit flag; a
    FIFO or round-robin request with a priority outside 1..99 keeps the
    policy and silently falls back to priority 0; an unknown policy
    silently falls back to the default policy.  [Start] throws exactly when
    [pthread_create] returns a non-zero code. *)
Theorem X12_ThreadRT_Start_ignores_setter_failures :
  forall os this w,
    let r := os_pthread_create_ret os (n_create w) in
    attr_stacksize (Start_attr this) = 1048576
    /\ attr_inheritsched (Start_attr this) = PTHREAD_EXPLICIT_SCHED
    /\ ((rt_policy_ this = SCHED_FIFO \/ rt_policy_ this = SCHED_RR) ->
        ~ 1 <= rt_priority_ this <= 99 ->
        attr_schedpolicy (Start_attr this) = rt_policy_ this
        /\ attr_sched_priority (Start_attr this) = 0)
    /\ (rt_policy_ this <> SCHED_OTHER -> rt_policy_ this <> SCHED_FIFO ->
        rt_policy_ this <> SCHED_RR ->
        attr_schedpolicy (Start_attr this) = SCHED_OTHER
        /\ (rt_priority_ this <> 0 -> attr_sched_priority (Start_attr this) = 0))
    /\ (r = 0 -> exists this', fst (ThreadRT_Start os this w) = Normal this')
    /\ (r <> 0 ->
        fst (ThreadRT_Start os this w)
        = Thrown (runtime_error ("pthread_create failed: " ++ os_strerror os r))).
Proof.
  intros os this w r.
  assert (Hstack : forall a, attr_stacksize (snd (pthread_attr_setinheritsched
                     (snd (pthread_attr_setstacksize a (1024 * 1024))) PTHREAD_EXPLICIT_SCHED))
                   = 1048576) by reflexivity.
  assert (Hinh : forall a, attr_inheritsched (snd (pthread_attr_setinheritsched
                     (snd (pthread_attr_setstacksize a (1024 * 1024))) PTHREAD_EXPLICIT_SCHED))
                   = PTHREAD_EXPLICIT_SCHED) by reflexivity.
  split; [apply Hstack | split; [apply Hinh | split; [ | split; [ | split]]]].
  - intros Hpol Hprio. unfold Start_attr, pthread_attr_setschedpolicy.
    replace ((rt_policy_ this =? SCHED_OTHER) || (rt_policy_ this =? SCHED_FIFO)
             || (rt_policy_ this =? SCHED_RR)) with true
      by (destruct Hpol as [-> | ->]; reflexivity).
    cbn [snd]. unfold pthread_attr_setschedparam. cbn [attr_schedpolicy].
    replace ((sched_get_priority_min (rt_policy_ this) <=? rt_priority_ this)
             && (rt_priority_ this <=? sched_get_priority_max (rt_policy_ this))) with false.
    + split; reflexivity.
    + symmetry. apply andb_false_iff.
      destruct Hpol as [-> | ->];
        change (sched_get_priority_min _) with 1; change (sched_get_priority_max _) with 99;
        (destruct (Z_le_dec 1 (rt_priority_ this));
         [right; apply Z.leb_gt; lia | left; apply Z.leb_gt; lia]).
  - intros H0 H1 H2. unfold Start_attr, pthread_attr_setschedpolicy.
    apply Z.eqb_neq in H0, H1, H2. rewrite H0, H1, H2. cbn [orb snd].
    unfold pthread_attr_setschedparam. cbn [attr_schedpolicy pthread_attr_init].
    change (sched_get_priority_min SCHED_OTHER) with 0.
    change (sched_get_priority_max SCHED_OTHER) with 0.
    destruct ((0 <=? rt_priority_ this) && (rt_priority_ this <=? 0)) eqn:Hp.
    + split; [reflexivity | ]. intros Hne.
      apply andb_true_iff in Hp. destruct Hp as [Ha Hb].
      apply Z.leb_le in Ha, Hb. lia.
    + split; [reflexivity | intros _; reflexivity].
  - intros Hr. rewrite ThreadRT_Start_run. cbv zeta. fold r. rewrite Hr.
    eexists. reflexivity.
  - intros Hr. rewrite ThreadRT_Start_run. cbv zeta. fold r.
    apply Z.eqb_neq in Hr. rewrite Hr. reflexivity.
Qed.

Lemma X12_ThreadRT_Start_ignores_setter_failures_witness :
  ~ 1 <= rt_priority_ app1_fifo_150 <= 99
  /\ attr_sched_priority (Start_attr app1_fifo_150) = 0
  /\ exists this', fst (ThreadRT_Start os_ok app1_fifo_150 world0) = Normal this'.
Proof.
  assert (Hp : ~ 1 <= rt_priority_ app1_fifo_150 <= 99) by (simpl; lia).
  destruct (X12_ThreadRT_Start_ignores_setter_failures os_ok app1_fifo_150 world0)
    as (_ & _ & Hfall & _ & Hok & _).
  split; [exact Hp | split].
  - exact (proj2 (Hfall (or_introl eq_refl) Hp)).
  - exact (Hok eq_refl).
Defined.

(** ** The sign of the reported run time *)

Lemma binary_round_aux_signed (sx : bool) (q : positive) (e : Z) (l : location) :
  emin <= e ->
  binary_round_aux prec emax sx (Zpos q) e l = S754_infinity sx
  \/ exists m' e', binary_round_aux prec emax sx (Zpos q) e l = S754_finite sx m' e'.
Proof.
  intros He. unfold binary_round_aux.
  destruct (shr_fexp_positive q e l He) as [Hm1 He1].
  destruct (shr_fexp prec emax (Zpos q) e l) as [mrs' e'] eqn:E1. cbn [fst snd] in Hm1, He1.
  pose proof (round_nearest_even_ge (shr_m mrs') (loc_of_shr_record mrs')) as Hr.
  destruct (round_nearest_even (shr_m mrs') (loc_of_shr_record mrs')) as [ | q2 | q2 ] eqn:E2;
    try lia.
  assert (He' : emin <= e') by lia.
  destruct (shr_fexp_positive q2 e' loc_Exact He') as [Hm2 _].
  destruct (shr_fexp prec emax (Zpos q2) e' loc_Exact) as [mrs'' e''] eqn:E3.
  cbn [fst] in Hm2.
  destruct (shr_m mrs'') as [ | q3 | q3 ]; try lia.
  destruct (e'' <=? emax - prec).
  - right. exists q3, e''. reflexivity.
  - left. reflexivity.
Qed.

Lemma binary_round_signed (sx : bool) (q : positive) (e : Z) :
  emin <= e ->
  binary_round prec emax sx q e = S754_infinity sx
  \/ exists m' e', binary_round prec emax sx q e = S754_finite sx m' e'.
Proof.
  intros He. unfold binary_round.
  destruct (shl_align_value q e (fexp prec emax (Zpos (digits2_pos q) + e))) as [Hez _].
  destruct (shl_align q e (fexp prec emax (Zpos (digits2_pos q) + e))) as [mz ez].
  cbn [snd] in Hez. subst ez.
  pose proof (fexp_ge_emin (Zpos (digits2_pos q) + e)) as Hf.
  apply binary_round_aux_signed. lia.
Qed.

Lemma SFadd_big_small (sx : bool) (x y : spec_float) :
  sf_big sx x ->
  valid_binary y = true ->
  sf_small_against sx y ->
  SFadd prec emax x y = S754_infinity sx
  \/ exists m e, SFadd prec emax x y = S754_finite sx m e.
Proof.
  intros [-> | (mx & ex & -> & Hex & Hdx)] Hvy Hy.
  - left. destruct y as [sy | sy | | sy my ey]; cbn [sf_small_against] in Hy.
    + reflexivity.
    + subst sy. destruct sx; reflexivity.
    + contradiction.
    + reflexivity.
  - destruct y as [sy | sy | | sy my ey]; cbn [sf_small_against] in Hy.
    + right. exists mx, ex. reflexivity.
    + left. subst sy. reflexivity.
    + contradiction.
    + destruct (valid_finite_digits sy my ey Hvy) as (Hey & Hdy & _).
      cbn [SFadd].
      destruct (shl_align_value mx ex (Z.min ex ey)) as [_ HX].
      destruct (shl_align_value my ey (Z.min ex ey)) as [_ HY].
      set (X := Zpos (fst (shl_align mx ex (Z.min ex ey)))) in *.
      set (Y := Zpos (fst (shl_align my ey (Z.min ex ey)))) in *.
      assert (HXpos : 0 < X) by (subst X; lia).
      assert (HYpos : 0 < Y) by (subst Y; lia).
      assert (HD : sy = sx \/ Y < X).
      { destruct Hy as [Hs | Hsmall]; [left; exact Hs | right].
        destruct (digits2_pos_bounds mx) as [Hmx _]. rewrite Hdx in Hmx.
        change (2 ^ (53 - 1)) with 4503599627370496 in Hmx.
        destruct (digits2_pos_bounds my) as [_ Hmy].
        assert (Hmy' : Zpos my < 2 ^ 53).
        { apply Z.lt_le_trans with (2 ^ Zpos (digits2_pos my)); [exact Hmy | ].
          apply Z.pow_le_mono_r; lia. }
        change (2 ^ 53) with 9007199254740992 in Hmy'.
        replace (Z.min ex (Z.min ex ey)) with ey in HX by lia.
        replace (Z.min ey (Z.min ex ey)) with ey in HY by lia.
        rewrite Z.sub_diag in HY. change (2 ^ 0) with 1 in HY.
        destruct Hsmall as [He | [He Hlt]].
        - assert (Hp : 2 ^ 1 <= 2 ^ (ex - ey)) by (apply Z.pow_le_mono_r; lia).
          change (2 ^ 1) with 2 in Hp.
          set (P := 2 ^ (ex - ey)) in *. clearbody P. nia.
        - assert (Hp : 2 ^ 0 <= 2 ^ (ex - ey)) by (apply Z.pow_le_mono_r; lia).
          change (2 ^ 0) with 1 in Hp.
          set (P := 2 ^ (ex - ey)) in *. clearbody P. nia. }
      assert (Hemin : emin <= Z.min ex ey).
      { unfold SpecFloat.emin, prec, emax in *. lia. }
      destruct sx.
      * assert (Hneg : cond_Zopp true X + cond_Zopp sy Y < 0).
        { destruct HD as [-> | Hlt]; [cbn [cond_Zopp]; lia | ].
          destruct sy; cbn [cond_Zopp]; lia. }
        destruct (cond_Zopp true X + cond_Zopp sy Y) as [ | q | q ]; try lia.
        cbn [binary_normalize]. apply binary_round_signed. exact Hemin.
      * assert (Hpos : 0 < cond_Zopp false X + cond_Zopp sy Y).
        { destruct HD as [-> | Hlt]; [cbn [cond_Zopp]; lia | ].
          destruct sy; cbn [cond_Zopp]; lia. }
        destruct (cond_Zopp false X + cond_Zopp sy Y) as [ | q | q ]; try lia.
        cbn [binary_normalize]. apply binary_round_signed. exact Hemin.
Qed.

Lemma long_to_double_positive (s : Z) :
  1 <= s < 2 ^ 63 -> sf_big false (Prim2SF (long_to_double s)).
Proof.
  intros Hs. unfold long_to_double.
  replace (s =? LONG_MIN) with false by (symmetry; apply Z.eqb_neq; unfold LONG_MIN; lia).
  replace (s <? 0) with false by (symmetry; apply Z.ltb_ge; lia).
  apply (of_uint63_ge_one s Hs).
Qed.

Lemma long_to_double_negative (s : Z) :
  - 2 ^ 63 < s <= -1 -> sf_big true (Prim2SF (long_to_double s)).
Proof.
  intros Hs. unfold long_to_double.
  replace (s =? LONG_MIN) with false by (symmetry; apply Z.eqb_neq; unfold LONG_MIN; lia).
  replace (s <? 0) with true by (symmetry; apply Z.ltb_lt; lia).
  rewrite opp_spec.
  destruct (of_uint63_ge_one (- s)) as [H | (mx & ex & H & Hex & Hd)]; [lia | | ].
  - rewrite H. left. reflexivity.
  - rewrite H. right. exists mx, ex. repeat split; assumption.
Qed.

Lemma small_against_positive (P : float) :
  (-1 <? P)%float = true -> sf_small_against false (Prim2SF P).
Proof.
  rewrite ltb_spec, Prim2SF_minus_one. unfold SFltb, SFcompare, sf_minus_one.
  destruct (Prim2SF P) as [sy | [ | ] | | [ | ] my ey]; cbn [sf_small_against];
    intros H; try discriminate H; auto.
  right.
  destruct (Z.compare_spec (-52) ey) as [He | He | He]; try discriminate H.
  - right. split; [lia | ].
    change (Pos.compare_cont Eq 4503599627370496 my)
      with (Z.compare (Zpos 4503599627370496) (Zpos my)) in H.
    destruct (Z.compare_spec (Zpos 4503599627370496) (Zpos my)) as [Hm | Hm | Hm];
      cbn [CompOpp] in H; try discriminate H. lia.
  - left. lia.
Qed.

Lemma Prim2SF_one : Prim2SF 1%float = sf_one.
Proof. vm_compute. reflexivity. Qed.

Lemma small_against_negative (P : float) :
  (P <? 1)%float = true -> sf_small_against true (Prim2SF P).
Proof.
  rewrite ltb_spec, Prim2SF_one.
  unfold SFltb, SFcompare, sf_one.
  destruct (Prim2SF P) as [sy | [ | ] | | [ | ] my ey]; cbn [sf_small_against];
    intros H; try discriminate H; auto.
  right.
  destruct (Z.compare_spec ey (-52)) as [He | He | He]; try discriminate H.
  - right. split; [lia | ].
    destruct (Pos.compare_cont Eq my 4503599627370496) eqn:Hc; try discriminate H.
    apply Pos.compare_lt_iff, Pos2Z.pos_lt_pos in Hc. exact Hc.
  - left. lia.
Qed.

Lemma add_big_positive (S P : float) :
  sf_big false (Prim2SF S) -> (-1 <? P)%float = true -> (0 <? S + P)%float = true.
Proof.
  intros HS HP. rewrite ltb_spec, add_spec, Prim2SF_zero. unfold SF64add.
  destruct (SFadd_big_small false (Prim2SF S) (Prim2SF P) HS (Prim2SF_valid P)
              (small_against_positive P HP)) as [-> | (m & e & ->)]; reflexivity.
Qed.

Lemma add_big_negative (S P : float) :
  sf_big true (Prim2SF S) -> (P <? 1)%float = true -> (S + P <? 0)%float = true.
Proof.
  intros HS HP. rewrite ltb_spec, add_spec, Prim2SF_zero. unfold SF64add.
  destruct (SFadd_big_small true (Prim2SF S) (Prim2SF P) HS (Prim2SF_valid P)
              (small_against_negative P HP)) as [-> | (m & e & ->)]; reflexivity.
Qed.

Lemma all_micros_sign_ok : all_in_block micros_sign_ok 20 0 = true.
Proof. vm_compute. reflexivity. Qed.

Lemma micros_sign_below (m : Z) :
  0 <= m < 1000000 ->
  (-1 <? scaled_micros m)%float = true
  /\ (-1 <? scaled_micros (- m))%float = true
  /\ (scaled_micros m <? 1)%float = true
  /\ (scaled_micros (- m) <? 1)%float = true
  /\ (m <> 0 ->
      (0 <? long_to_double 0 + scaled_micros m)%float = true
      /\ (long_to_double 0 + scaled_micros (- m) <? 0)%float = true).
Proof.
  intros Hm.
  assert (H : micros_sign_ok m = true).
  { apply (all_in_block_spec micros_sign_ok 20 0 all_micros_sign_ok).
    change (2 ^ Z.of_nat 20) with 1048576. lia. }
  unfold micros_sign_ok in H.
  replace (1000000 <=? m) with false in H by (symmetry; apply Z.leb_gt; lia).
  cbn [orb] in H.
  repeat (apply andb_true_iff in H; destruct H as [H ?]).
  repeat split; try assumption.
  - match goal with
    | H0 : (m =? 0) || _ = true |- _ =>
        apply orb_true_iff in H0; destruct H0 as [H0 | H0];
        [apply Z.eqb_eq in H0; contradiction | apply andb_true_iff in H0; apply H0]
    end.
  - match goal with
    | H0 : (m =? 0) || _ = true |- _ =>
        apply orb_true_iff in H0; destruct H0 as [H0 | H0];
        [apply Z.eqb_eq in H0; contradiction | apply andb_true_iff in H0; apply H0]
    end.
Qed.

Lemma elapsed_time_unwrapped (st et : timeval) :
  timeval_wf st -> timeval_wf et ->
  elapsed_time st et
  = (long_to_double (tv_sec et - tv_sec st) + scaled_micros (tv_usec et - tv_usec st))%float.
Proof.
  intros [Hs1 Hs2] [He1 He2]. unfold elapsed_time, scaled_micros. cbv zeta.
  rewrite !wrap_long_small; [reflexivity | lia | lia].
Qed.

(** X13: for times as [gettimeofday] gives them, the reported run time has
    the sign of the clock difference: strictly positive when the end time
    is later than the start time, zero when they are equal, and strictly
    negative when the end time is earlier, as happens when the wall clock
    is set back between [Start] and [Join]; the code reports that
    negative run time as it is. *)
Theorem X13_elapsed_time_sign :
  forall st et,
    timeval_wf st -> timeval_wf et ->
    (timeval_lt st et -> (0 <? elapsed_time st et)%float = true)
    /\ (st = et -> (elapsed_time st et =? 0)%float = true)
    /\ (timeval_lt et st -> (elapsed_time st et <? 0)%float = true).
Proof.
  intros st et Hst Het. rewrite (elapsed_time_unwrapped st et Hst Het).
  destruct Hst as [Hs1 Hs2]. destruct Het as [He1 He2].
  set (s := tv_sec et - tv_sec st). set (m := tv_usec et - tv_usec st).
  split; [ | split].
  - intros [Hlt | [Heq Hu]].
    + apply add_big_positive; [apply long_to_double_positive; lia | ].
      destruct (Z_lt_le_dec m 0).
      * destruct (micros_sign_below (- m)) as (_ & H & _); [lia | ].
        rewrite Z.opp_involutive in H. exact H.
      * destruct (micros_sign_below m) as (H & _); [lia | exact H].
    + replace s with 0 by lia.
      destruct (micros_sign_below m) as (_ & _ & _ & _ & H); [lia | ].
      apply H. lia.
  - intros ->. subst s m. rewrite !Z.sub_diag. vm_compute. reflexivity.
  - intros [Hlt | [Heq Hu]].
    + apply add_big_negative; [apply long_to_double_negative; lia | ].
      destruct (Z_lt_le_dec m 0).
      * destruct (micros_sign_below (- m)) as (_ & _ & _ & H & _); [lia | ].
        rewrite Z.opp_involutive in H. exact H.
      * destruct (micros_sign_below m) as (_ & _ & H & _); [lia | exact H].
    + replace s with 0 by lia.
      destruct (micros_sign_below (- m)) as (_ & _ & _ & _ & H); [lia | ].
      rewrite Z.opp_involutive in H. apply H. lia.
Qed.

Lemma X13_elapsed_time_sign_witness :
  timeval_wf start_of_app2 /\ timeval_wf end_of_app2
  /\ timeval_lt start_of_app2 end_of_app2
  /\ (0 <? elapsed_time start_of_app2 end_of_app2)%float = true
  /\ (elapsed_time end_of_app2 start_of_app2 <? 0)%float = true.
Proof.
  assert (H1 : timeval_wf start_of_app2) by (unfold timeval_wf; simpl; lia).
  assert (H2 : timeval_wf end_of_app2) by (unfold timeval_wf; simpl; lia).
  assert (Hlt : timeval_lt start_of_app2 end_of_app2) by (left; simpl; lia).
  destruct (X13_elapsed_time_sign start_of_app2 end_of_app2 H1 H2) as (Hpos & _ & _).
  destruct (X13_elapsed_time_sign end_of_app2 start_of_app2 H2 H1) as (_ & _ & Hneg).
  split; [exact H1 | split; [exact H2 | split; [exact Hlt | split]]].
  - exact (Hpos Hlt).
  - exact (Hneg Hlt).
Defined.

(** ** The life cycle in failing runs *)

(** X14: in every run, failing or not, the constructions, [Start()] and
    [Join()] calls made so far are the beginning of one complete life
    cycle of three handles (three constructions, then the three starts,
    then the three joins, each in the same order): nothing is constructed
    at all, or all three handles are constructed before the first start,
    no handle is started or joined twice or out of order, and no [Join()]
    is called before the three [Start()] calls have returned. *)
Theorem X14_lifecycle_is_always_a_prefix :
  forall os argv,
    let cs := calls (trace (snd (run os argv))) in
    cs = []
    \/ exists (hs : list (kind * Z)) (rest : list call),
        List.length hs = 3%nat
        /\ NoDup hs
        /\ (map Call_new hs ++ map Call_Start hs ++ map Call_Join hs)%list
           = (cs ++ rest)%list
        /\ (4 <= List.length cs)%nat
        /\ (filter is_Join (trace (snd (run os argv))) <> [] ->
            List.length (filter is_Start (trace (snd (run os argv)))) = 3%nat).
Proof.
  intros os argv cs. subst cs.
  main_paths os argv;
    first
      [ left; reflexivity
      | right; exists [(RealTime, 1); (Standard, 2); (Standard, 3)]; eexists;
        split; [reflexivity | split; [apply NoDup_three_apps | split; [reflexivity | split;
          [cbn; lia | cbn; first [intros _; reflexivity | intros H; contradiction H; reflexivity]]]]]
      | right; exists [(RealTime, 1); (RealTime, 2); (Standard, 3)]; eexists;
        split; [reflexivity | split; [apply NoDup_three_apps | split; [reflexivity | split;
          [cbn; lia | cbn; first [intros _; reflexivity | intros H; contradiction H; reflexivity]]]]] ].
Qed.
